(** * PyAudio: the stream callback bridge and the blocking I/O path

    A shallow embedding of [src/pyaudio/_portaudiomodule.c] and
    [src/pyaudio/stream_io.c]: the callback that PortAudio invokes for every
    buffer of frames, [pa_open], [pa_get_stream_time], the blocking
    [pa_write_stream] / [pa_read_stream] and the two availability queries.

    Conventions of the embedding.
    - C integers are [Z]; a conversion to a fixed-width type is written out
      ([to_int], [to_uint], [to_ulong]).  The data model is LP64: [int] has 32
      bits, [long], [size_t] and [Py_ssize_t] have 64.
    - A nullable pointer to a struct is an [option] of the struct; reading a
      field through a null pointer is the outcome [Fault NullDereference].
    - A function of the extension module returns an [Outcome]: a Python value,
      a raised Python error (C returns NULL with the error set), or a fault of
      the C program.
    - Everything outside the two files is a parameter: the PortAudio library
      is a record [PortAudio] of its entry points, the interpreter's call of
      the registered callback is the record [Python].
    - What the code does to the outside is recorded in a [World]: the blocks
      it holds from [malloc], the references it holds on the callback, the
      stream operations it asked PortAudio for, the asynchronous exceptions it
      posted and the tracebacks it printed.  The global interpreter lock
      ([PyGILState_Ensure], [Py_BEGIN_ALLOW_THREADS]) and the reference counts
      of temporaries are not part of the model; [malloc] and the allocation
      of Python objects are taken to succeed.
    - A function of the module is modelled from the point where
      [PyArg_ParseTuple] has filled its locals: a call whose arguments do
      not parse raises the parser's [TypeError] before any of this code
      runs.
    - The error indicator of a function of the module is its [Raise]
      outcome; an error that a C API call leaves pending while the function
      goes on and returns a value is not recorded.
    - A C function that PortAudio calls either returns or ends the process
      from inside ([Py_Exit]): a [Completion]. *)

From Stdlib Require Import ZArith List Lia Bool String.
From Stdlib Require Import Strings.Byte.
From Stdlib Require Import Floats.PrimFloat Floats.SpecFloat Floats.FloatOps.
Import ListNotations.

Local Open Scope Z_scope.
Set Warnings "-register-all".

(** ** C integer types (LP64) *)

Module C.

Definition INT_MIN : Z := - 2 ^ 31.
Definition INT_MAX : Z := 2 ^ 31 - 1.
Definition LONG_MIN : Z := - 2 ^ 63.
Definition LONG_MAX : Z := 2 ^ 63 - 1.

(** Conversion to [unsigned int]. *)
Definition to_uint (z : Z) : Z := z mod 2 ^ 32.

(** Conversion to [unsigned long] and to [size_t]. *)
Definition to_ulong (z : Z) : Z := z mod 2 ^ 64.

(** Conversion to [int] (two's complement wrap-around). *)
Definition to_int (z : Z) : Z := (z + 2 ^ 31) mod 2 ^ 32 - 2 ^ 31.

(** A C condition: an [int] is true when it is not zero. *)
Definition truthy (z : Z) : bool := negb (z =? 0).

(** [memcpy(dst, src, n)]: the first [n] bytes of [dst] are replaced by the
    first [n] bytes of [src].  Meaningful when both regions hold [n] bytes. *)
Definition memcpy (dst src : list byte) (n : Z) : list byte :=
  firstn (Z.to_nat n) src ++ skipn (Z.to_nat n) dst.

(** [memset(dst + off, c, n)]. Meaningful when [dst] holds [off + n] bytes. *)
Definition memset (dst : list byte) (off : Z) (c : byte) (n : Z) : list byte :=
  firstn (Z.to_nat off) dst ++ repeat c (Z.to_nat n)
    ++ skipn (Z.to_nat off + Z.to_nat n) dst.

End C.

(** ** portaudio.h *)

Definition PaError := Z.
Definition PaDeviceIndex := Z.
Definition PaSampleFormat := Z.

(** [PaStream *]: an opaque handle; the null pointer is [None]. *)
Definition PaStream := Z.

Definition paNoError : PaError := 0.
Definition paInvalidDevice : PaError := -9996.
Definition paInsufficientMemory : PaError := -9992.
Definition paBadStreamPtr : PaError := -9988.
Definition paInternalError : PaError := -9986.
Definition paInputOverflowed : PaError := -9981.
Definition paOutputUnderflowed : PaError := -9980.

(** [PaStreamCallbackResult]. *)
Definition paContinue : Z := 0.
Definition paComplete : Z := 1.
Definition paAbort : Z := 2.

Definition paClipOff : Z := 1.
Definition paFramesPerBufferUnspecified : Z := 0.
Definition DEFAULT_FRAMES_PER_BUFFER : Z := paFramesPerBufferUnspecified.

Record PaStreamParameters := mkPaStreamParameters {
  device : PaDeviceIndex;
  channelCount : Z;
  sampleFormat : PaSampleFormat;
  suggestedLatency : float;
  hostApiSpecificStreamInfo : option Z
}.

Record PaStreamInfo := mkPaStreamInfo {
  structVersion : Z;
  inputLatency : float;
  outputLatency : float;
  sampleRate : float
}.

Record PaDeviceInfo := mkPaDeviceInfo {
  defaultLowInputLatency : float;
  defaultLowOutputLatency : float
}.

Record PaStreamCallbackTimeInfo := mkPaStreamCallbackTimeInfo {
  inputBufferAdcTime : float;
  currentTime : float;
  outputBufferDacTime : float
}.

(** ** Python.h *)

Inductive PyExcType :=
| PyExc_TypeError
| PyExc_ValueError
| PyExc_IOError
| PyExc_OverflowError
| PyExc_SystemError
(** [SystemExit] and its subclasses *)
| PyExc_SystemExit
| PyExc_Other (tag : nat).

(** The objects that cross the boundary of the module.  A [str] is held by
    its UTF-8 encoding, a callable by an identifier that the interpreter
    resolves ([Python] below). *)
Inductive PyObject :=
| Py_None
| PyLong (n : Z)
| PyFloat (d : float)
| PyBytes (b : list byte)
| PyUnicode (utf8 : list byte)
| PyTuple (items : list PyObject)
| PyDict (items : list (string * PyObject))
| PyCallable (id : nat).

(** The value a raised error carries: the message of [PyErr_SetString], or the
    pair built by [Py_BuildValue("(i,s)", code, text)]. *)
Inductive PyErrValue :=
| ErrMessage (msg : string)
| ErrCodeText (code : Z) (text : string).

Record PyErr := mkPyErr {
  err_type : PyExcType;
  err_value : PyErrValue
}.

Definition PyErr_SetString (t : PyExcType) (msg : string) : PyErr :=
  mkPyErr t (ErrMessage msg).

(** [PyErr_SetObject(t, Py_BuildValue("(i,s)", code, text))]. *)
Definition PyErr_SetObject (t : PyExcType) (code : Z) (text : string) : PyErr :=
  mkPyErr t (ErrCodeText code text).

Definition PyCallable_Check (o : PyObject) : Z :=
  match o with PyCallable _ => 1 | _ => 0 end.

Definition PyNumber_Check (o : PyObject) : bool :=
  match o with PyLong _ | PyFloat _ => true | _ => false end.

(** [PyLong_AsLong(o)]: -1 when [o] is NULL or not an integer that fits a
    [long]. *)
Definition PyLong_AsLong (o : option PyObject) : Z :=
  match o with
  | Some (PyLong n) => if (C.LONG_MIN <=? n) && (n <=? C.LONG_MAX) then n else -1
  | _ => -1
  end.

(** The unit ["z#"] of a [PyArg_ParseTuple] format: [None] gives a null
    pointer and length 0, [bytes] and [str] give their buffer and its
    length. *)
Definition parse_z_hash (o : PyObject)
  : option (option (list byte) * Z) :=
  match o with
  | Py_None => Some (None, 0)
  | PyBytes b => Some (Some b, Z.of_nat (List.length b))
  | PyUnicode b => Some (Some b, Z.of_nat (List.length b))
  | _ => None
  end.

(** The unit ["i"]: a Python integer that fits a C [int]. *)
Definition parse_i (o : PyObject) : PyExcType + Z :=
  match o with
  | PyLong n =>
      if (C.INT_MIN <=? n) && (n <=? C.INT_MAX) then inr n
      else inl PyExc_OverflowError
  | _ => inl PyExc_TypeError
  end.

(** [PyArg_ParseTuple(py_result, "z#i", &pData, &output_len, &return_val)]:
    the parsed triple, or the exception it sets. *)
Definition PyArg_ParseTuple_z_hash_i (py_result : PyObject)
  : PyExcType + (option (list byte) * Z * Z) :=
  match py_result with
  | PyTuple [data; code] =>
      match parse_z_hash data with
      | None => inl PyExc_TypeError
      | Some (pData, output_len) =>
          match parse_i code with
          | inl e => inl e
          | inr return_val => inr (pData, output_len, return_val)
          end
      end
  | PyTuple _ => inl PyExc_TypeError
  | _ => inl PyExc_SystemError
  end.

(** The interpreter as the module sees it: the call of a Python object with
    positional arguments returns a value or raises. *)
Record Python := mkPython {
  PyObject_CallFunctionObjArgs : PyObject -> list PyObject -> PyExcType + PyObject;
  (** the integer an object converts to, or NULL ([None]) when the
      conversion raises *)
  PyNumber_Long : PyObject -> option PyObject;
  (** [PyThreadState_Get()->thread_id] *)
  current_thread_id : Z;
  (** whether the interpreter was started with [-i] (the [inspect] field of
      its configuration) *)
  Py_InspectFlag : bool
}.

(** ** The PortAudio library *)

Record PortAudio := mkPortAudio {
  Pa_GetDeviceCount : PaDeviceIndex;
  Pa_GetDefaultInputDevice : PaDeviceIndex;
  Pa_GetDefaultOutputDevice : PaDeviceIndex;
  Pa_GetDeviceInfo : PaDeviceIndex -> option PaDeviceInfo;
  Pa_GetSampleSize : PaSampleFormat -> PaError;
  Pa_GetErrorText : PaError -> string;
  (** input parameters, output parameters, sample rate, frames per buffer,
      flags, whether a callback is given; the error and the stream written
      through the first argument *)
  Pa_OpenStream : option PaStreamParameters -> option PaStreamParameters ->
                  Z -> Z -> Z -> bool -> PaError * option PaStream;
  Pa_GetStreamInfo : option PaStream -> option PaStreamInfo;
  Pa_GetStreamTime : option PaStream -> float;
  Pa_WriteStream : option PaStream -> list byte -> Z -> PaError;
  (** the buffer to fill and the number of frames; the error and the buffer
      as PortAudio leaves it *)
  Pa_ReadStream : option PaStream -> list byte -> Z -> PaError * list byte;
  Pa_GetStreamWriteAvailable : option PaStream -> Z;
  Pa_GetStreamReadAvailable : option PaStream -> Z
}.

(** ** The world outside the module *)

Inductive Block :=
| InputParameters_block
| OutputParameters_block
| CallbackContext_block.

Definition Block_eqb (a b : Block) : bool :=
  match a, b with
  | InputParameters_block, InputParameters_block => true
  | OutputParameters_block, OutputParameters_block => true
  | CallbackContext_block, CallbackContext_block => true
  | _, _ => false
  end.

(** The calls into PortAudio that create, use or destroy a stream. *)
Inductive PaCall :=
| Call_Pa_OpenStream (inputParameters outputParameters : option PaStreamParameters)
    (sampleRate framesPerBuffer streamFlags : Z) (with_callback : bool)
| Call_Pa_GetStreamInfo (s : option PaStream)
| Call_Pa_CloseStream (s : PaStream)
| Call_Pa_GetStreamTime (s : option PaStream)
| Call_Pa_WriteStream (s : option PaStream) (buffer : list byte) (frames : Z)
| Call_Pa_ReadStream (s : option PaStream) (frames : Z)
| Call_Pa_GetStreamWriteAvailable (s : option PaStream)
| Call_Pa_GetStreamReadAvailable (s : option PaStream).

Record World := mkWorld {
  (** blocks obtained from [malloc] and not yet given to [free] *)
  heap : list Block;
  (** references the module holds on callback objects
      ([Py_INCREF] minus [Py_XDECREF]) *)
  callback_refs : Z;
  (** stream calls into PortAudio, oldest first *)
  pa_calls : list PaCall;
  (** the error indicator of the thread that runs the callback bridge *)
  curexc : option PyExcType;
  (** exceptions posted with [PyThreadState_SetAsyncExc]: thread, exception *)
  async_exc : list (Z * PyExcType);
  (** exceptions reported on stderr by [PyErr_Print] *)
  printed : list PyExcType
}.

Definition world0 : World := mkWorld [] 0 [] None [] [].

Definition malloc (b : Block) (w : World) : World :=
  mkWorld (b :: heap w) (callback_refs w) (pa_calls w) (curexc w)
          (async_exc w) (printed w).

Fixpoint remove_block (b : Block) (l : list Block) : list Block :=
  match l with
  | [] => []
  | x :: l' => if Block_eqb b x then l' else x :: remove_block b l'
  end.

Definition free (b : Block) (w : World) : World :=
  mkWorld (remove_block b (heap w)) (callback_refs w) (pa_calls w) (curexc w)
          (async_exc w) (printed w).

Definition Py_INCREF (w : World) : World :=
  mkWorld (heap w) (callback_refs w + 1) (pa_calls w) (curexc w)
          (async_exc w) (printed w).

Definition Py_XDECREF (w : World) : World :=
  mkWorld (heap w) (callback_refs w - 1) (pa_calls w) (curexc w)
          (async_exc w) (printed w).

Definition pa_call (c : PaCall) (w : World) : World :=
  mkWorld (heap w) (callback_refs w) (pa_calls w ++ [c]) (curexc w)
          (async_exc w) (printed w).

(** A failing C API call, and [PyErr_SetString] inside the bridge, leave
    their exception in the error indicator. *)
Definition set_curexc (e : PyExcType) (w : World) : World :=
  mkWorld (heap w) (callback_refs w) (pa_calls w) (Some e)
          (async_exc w) (printed w).

Definition PyErr_Occurred (w : World) : option PyExcType := curexc w.

Definition PyThreadState_SetAsyncExc (id : Z) (exc : PyExcType) (w : World)
  : World :=
  mkWorld (heap w) (callback_refs w) (pa_calls w) (curexc w)
          (async_exc w ++ [(id, exc)]) (printed w).

(** [PyErr_Print] writes the traceback of the pending error and clears the
    error indicator.  When the pending error is a [SystemExit] and the
    interpreter was not started with [-i], it calls [Py_Exit] instead and
    does not return: [None]. *)
Definition PyErr_Print (inspect : bool) (w : World) : option World :=
  match curexc w with
  | Some e =>
      let exits :=
        match e with PyExc_SystemExit => negb inspect | _ => false end in
      if exits then None
      else Some (mkWorld (heap w) (callback_refs w) (pa_calls w) None
                   (async_exc w) (printed w ++ [e]))
  | None => Some w
  end.

(** How a call of a C function ends: it returns [v], or the process ends
    inside the call ([Py_Exit]) in the world [w]. *)
Inductive Completion (A : Type) :=
| Returned (v : A)
| Py_Exit (w : World).

Arguments Returned {A} v.
Arguments Py_Exit {A} w.

(** ** Outcomes of a module function *)

Inductive CFault := NullDereference.

Inductive Outcome (A : Type) :=
| Return (v : A)
| Raise (e : PyErr)
| Fault (f : CFault).

Arguments Return {A} v.
Arguments Raise {A} e.
Arguments Fault {A} f.

(** Code that changes the world and may leave early. *)
Definition M (A : Type) : Type := World -> Outcome A * World.

Definition ret {A} (v : A) : M A := fun w => (Return v, w).
Definition raise {A} (e : PyErr) : M A := fun w => (Raise e, w).
Definition fault {A} (f : CFault) : M A := fun w => (Fault f, w).

Definition bind {A B} (m : M A) (k : A -> M B) : M B :=
  fun w =>
    match m w with
    | (Return v, w') => k v w'
    | (Raise e, w') => (Raise e, w')
    | (Fault f, w') => (Fault f, w')
    end.

(** An effect on the world that cannot fail. *)
Definition effect (f : World -> World) : M unit := fun w => (Return tt, f w).

(** [p->field] for a nullable pointer [p]. *)
Definition deref {A} (p : option A) : M A :=
  match p with
  | Some v => ret v
  | None => fault NullDereference
  end.

Declare Scope c_scope.
Delimit Scope c_scope with c.
Notation "x <- m ;; k" := (bind m (fun x => k))
  (at level 61, m at next level, right associativity) : c_scope.
Notation "m ;; k" := (bind m (fun _ => k))
  (at level 61, right associativity) : c_scope.

(** ** The stream object *)

Record PyAudioCallbackContext := mkPyAudioCallbackContext {
  callback : PyObject;
  main_thread_id : Z;
  frame_size : Z
}.

Record _pyAudio_Stream := mk_pyAudio_Stream {
  stream : option PaStream;
  inputParameters : option PaStreamParameters;
  outputParameters : option PaStreamParameters;
  streamInfo : option PaStreamInfo;
  callbackContext : option PyAudioCallbackContext;
  is_open : Z
}.

(** ** _portaudiomodule.c *)

Module PortAudioModule.

Local Open Scope c_scope.

(** [static int _is_open(_pyAudio_Stream *obj)] *)
Definition _is_open (obj : option _pyAudio_Stream) : bool :=
  match obj with
  | Some o => C.truthy (is_open o)
  | None => false
  end.

(** [static void _cleanup_Stream_object(_pyAudio_Stream *streamObject)] *)
Definition _cleanup_Stream_object (streamObject : _pyAudio_Stream) (w : World)
  : _pyAudio_Stream * World :=
  let w := match stream streamObject with
           | Some s => pa_call (Call_Pa_CloseStream s) w
           | None => w
           end in
  let w := match inputParameters streamObject with
           | Some _ => free InputParameters_block w
           | None => w
           end in
  let w := match outputParameters streamObject with
           | Some _ => free OutputParameters_block w
           | None => w
           end in
  let w := match callbackContext streamObject with
           | Some _ => free CallbackContext_block (Py_XDECREF w)
           | None => w
           end in
  (mk_pyAudio_Stream None None None None None 0, w).

(** [int _stream_callback_cfunction(const void *input, void *output,
    unsigned long frameCount, const PaStreamCallbackTimeInfo *timeInfo,
    PaStreamCallbackFlags statusFlags, void *userData)].
    [input] and [output] are the device buffers behind the two pointers
    ([None] for a null pointer); the bridge returns the continuation code,
    the output buffer as it leaves it, and the world, unless [PyErr_Print]
    ends the process. *)
Definition _stream_callback_cfunction (py : Python)
    (input output : option (list byte)) (frameCount : Z)
    (timeInfo : PaStreamCallbackTimeInfo) (statusFlags : Z)
    (userData : PyAudioCallbackContext) (w : World)
  : Completion (Z * option (list byte) * World) :=
  let return_val := paAbort in
  let context := userData in
  let py_callback := callback context in
  let bytes_per_frame := frame_size context in
  let main_thread_id := main_thread_id context in
  let py_frame_count := PyLong frameCount in
  let py_time_info :=
    PyDict [("input_buffer_adc_time"%string, PyFloat (inputBufferAdcTime timeInfo));
            ("current_time"%string, PyFloat (currentTime timeInfo));
            ("output_buffer_dac_time"%string, PyFloat (outputBufferDacTime timeInfo))] in
  let py_status_flags := PyLong statusFlags in
  let py_input_data :=
    match input with
    | Some mem =>
        PyBytes (firstn (Z.to_nat (C.to_ulong (bytes_per_frame * frameCount))) mem)
    | None => Py_None
    end in
  match PyObject_CallFunctionObjArgs py py_callback
          [py_input_data; py_frame_count; py_time_info; py_status_flags] with
  | inl raised =>
      (* py_result == NULL, lines 491-507 *)
      let w := set_curexc raised w in
      match PyErr_Occurred w with
      | Some err =>
          let w := PyThreadState_SetAsyncExc main_thread_id err w in
          match PyErr_Print (Py_InspectFlag py) w with
          | Some w => Returned (return_val, output, w)
          | None => Py_Exit w
          end
      | None => Returned (return_val, output, w)
      end
  | inr py_result =>
      match PyArg_ParseTuple_z_hash_i py_result with
      | inl raised =>
          (* lines 510-534 *)
          let w := set_curexc raised w in
          match PyErr_Occurred w with
          | Some err =>
              let w := PyThreadState_SetAsyncExc main_thread_id err w in
              match PyErr_Print (Py_InspectFlag py) w with
              | Some w => Returned (paAbort, output, w)
              | None => Py_Exit w
              end
          | None => Returned (paAbort, output, w)
          end
      | inr (pData, output_len, return_val) =>
          if negb (return_val =? paComplete) && negb (return_val =? paAbort)
             && negb (return_val =? paContinue)
          then
            let w := set_curexc PyExc_ValueError w in
            let w := match PyErr_Occurred w with
                     | Some err => PyThreadState_SetAsyncExc main_thread_id err w
                     | None => w
                     end in
            match PyErr_Print (Py_InspectFlag py) w with
            | Some w => Returned (paAbort, output, w)
            | None => Py_Exit w
            end
          else
            match output with
            | Some output_data =>
                let pa_max_num_bytes := C.to_ulong (bytes_per_frame * frameCount) in
                let bytes_to_copy :=
                  if C.to_ulong output_len <? pa_max_num_bytes
                  then C.to_ulong output_len else pa_max_num_bytes in
                let output_data :=
                  match pData with
                  | Some src =>
                      if 0 <? bytes_to_copy
                      then C.memcpy output_data src bytes_to_copy
                      else output_data
                  | None => output_data
                  end in
                if bytes_to_copy <? pa_max_num_bytes
                then Returned (paComplete,
                               Some (C.memset output_data bytes_to_copy x00
                                       (pa_max_num_bytes - bytes_to_copy)),
                               w)
                else Returned (return_val, Some output_data, w)
            | None => Returned (return_val, None, w)
            end
      end
  end.

(** The conversion of [input_device_index] and of [output_device_index]
    (lines 665-686 and 688-709): absent or [None] is -1, a number is
    [(int)PyLong_AsLong(PyNumber_Long(arg))], anything else a [ValueError]
    with the message [msg].  The result of [PyNumber_Long] is not tested:
    when the conversion fails (a float nan), [Py_DECREF] is applied to the
    null pointer.  For an integer beyond [long], [PyLong_AsLong] answers -1
    and the code goes on with it; the [OverflowError] it leaves pending is
    not recorded (see the conventions above). *)
Definition device_index (py : Python) (arg : option PyObject) (msg : string)
  : M Z :=
  match arg with
  | None | Some Py_None => ret (-1)
  | Some o =>
      if negb (PyNumber_Check o)
      then raise (PyErr_SetString PyExc_ValueError msg)
      else
        let device_index_long := PyNumber_Long py o in
        let index := C.to_int (PyLong_AsLong device_index_long) in
        (* Py_DECREF(device_index_long) *)
        deref device_index_long ;;
        ret index
  end.

(** [static PyObject *pa_open(PyObject *self, PyObject *args,
    PyObject *kwargs)], from the point where [PyArg_ParseTupleAndKeywords]
    has filled the locals.  The host-API specific stream infos are left
    out (they are ignored unless [MACOSX] is defined). *)
Definition pa_open (pa : PortAudio) (py : Python)
    (rate channels : Z) (format : PaSampleFormat) (input output : Z)
    (input_device_index_arg output_device_index_arg : option PyObject)
    (frames_per_buffer : Z) (stream_callback : option PyObject)
  : M _pyAudio_Stream :=
  match stream_callback with
  | Some cb =>
      if PyCallable_Check cb =? 0
      then raise (PyErr_SetString PyExc_TypeError "stream_callback must be callable")
      else ret tt
  | None => ret tt
  end ;;
  input_device_index <-
    device_index py input_device_index_arg
      "input_device_index must be integer (or None)" ;;
  output_device_index <-
    device_index py output_device_index_arg
      "output_device_index must be integer (or None)" ;;
  if (input =? 0) && (output =? 0)
  then raise (PyErr_SetString PyExc_ValueError "Must specify either input or output")
  else
  if channels <? 1
  then raise (PyErr_SetString PyExc_ValueError "Invalid audio channels")
  else
  outputParameters <-
    (if C.truthy output then
       effect (malloc OutputParameters_block) ;;
       let device :=
         if output_device_index <? 0 then Pa_GetDefaultOutputDevice pa
         else output_device_index in
       (* final check -- ensure that there is a default device *)
       if (device <? 0) || (device >=? Pa_GetDeviceCount pa) then
         effect (free OutputParameters_block) ;;
         raise (PyErr_SetObject PyExc_IOError paInvalidDevice
                  "Invalid output device (no default output device)")
       else
         info <- deref (Pa_GetDeviceInfo pa device) ;;
         ret (Some (mkPaStreamParameters device channels format
                      (defaultLowOutputLatency info) None))
     else ret None) ;;
  inputParameters <-
    (if C.truthy input then
       effect (malloc InputParameters_block) ;;
       let device :=
         if input_device_index <? 0 then Pa_GetDefaultInputDevice pa
         else input_device_index in
       (* final check -- ensure that there is a default device *)
       if device <? 0 then
         effect (free InputParameters_block) ;;
         raise (PyErr_SetObject PyExc_IOError paInvalidDevice
                  "Invalid input device (no default output device)")
       else
         info <- deref (Pa_GetDeviceInfo pa device) ;;
         ret (Some (mkPaStreamParameters device channels format
                      (defaultLowInputLatency info) None))
     else ret None) ;;
  context <-
    match stream_callback with
    | Some cb =>
        effect Py_INCREF ;;
        effect (malloc CallbackContext_block) ;;
        ret (Some (mkPyAudioCallbackContext cb (current_thread_id py)
                     (C.to_uint (Pa_GetSampleSize pa format * channels))))
    | None => ret None
    end ;;
  let with_callback :=
    match stream_callback with Some _ => true | None => false end in
  (* the [int] is converted to the [unsigned long] of the prototype *)
  let framesPerBuffer := C.to_ulong frames_per_buffer in
  let '(err, stream) :=
    Pa_OpenStream pa inputParameters outputParameters rate framesPerBuffer
      paClipOff with_callback in
  effect (pa_call (Call_Pa_OpenStream inputParameters outputParameters rate
                     framesPerBuffer paClipOff with_callback)) ;;
  if negb (err =? paNoError)
  then raise (PyErr_SetObject PyExc_IOError err (Pa_GetErrorText pa err))
  else
  effect (pa_call (Call_Pa_GetStreamInfo stream)) ;;
  match Pa_GetStreamInfo pa stream with
  | None =>
      raise (PyErr_SetObject PyExc_IOError paInternalError
               "Could not get stream information")
  | Some streamInfo =>
      ret (mk_pyAudio_Stream stream inputParameters outputParameters
             (Some streamInfo) context 1)
  end.

(** The steps of [pa_open], named one by one for the proofs;
    [pa_open_steps] below shows that [pa_open] is their sequence. *)

(** Lines 660-663. *)
Definition open_check_callback (stream_callback : option PyObject) : M unit :=
  match stream_callback with
  | Some cb =>
      if PyCallable_Check cb =? 0
      then raise (PyErr_SetString PyExc_TypeError "stream_callback must be callable")
      else ret tt
  | None => ret tt
  end.

(** Lines 711-719. *)
Definition open_check_direction (input output channels : Z) : M unit :=
  if (input =? 0) && (output =? 0)
  then raise (PyErr_SetString PyExc_ValueError "Must specify either input or output")
  else
  if channels <? 1
  then raise (PyErr_SetString PyExc_ValueError "Invalid audio channels")
  else ret tt.

(** The device that a direction resolves to: the default device for a
    negative index. *)
Definition resolve_device (index default : PaDeviceIndex) : PaDeviceIndex :=
  if index <? 0 then default else index.

(** Lines 721-753. *)
Definition open_output_parameters (pa : PortAudio) (channels : Z)
    (format : PaSampleFormat) (output output_device_index : Z)
  : M (option PaStreamParameters) :=
  if C.truthy output then
    effect (malloc OutputParameters_block) ;;
    let device := resolve_device output_device_index (Pa_GetDefaultOutputDevice pa) in
    if (device <? 0) || (device >=? Pa_GetDeviceCount pa) then
      effect (free OutputParameters_block) ;;
      raise (PyErr_SetObject PyExc_IOError paInvalidDevice
               "Invalid output device (no default output device)")
    else
      info <- deref (Pa_GetDeviceInfo pa device) ;;
      ret (Some (mkPaStreamParameters device channels format
                   (defaultLowOutputLatency info) None))
  else ret None.

(** Lines 755-786. *)
Definition open_input_parameters (pa : PortAudio) (channels : Z)
    (format : PaSampleFormat) (input input_device_index : Z)
  : M (option PaStreamParameters) :=
  if C.truthy input then
    effect (malloc InputParameters_block) ;;
    let device := resolve_device input_device_index (Pa_GetDefaultInputDevice pa) in
    if device <? 0 then
      effect (free InputParameters_block) ;;
      raise (PyErr_SetObject PyExc_IOError paInvalidDevice
               "Invalid input device (no default output device)")
    else
      info <- deref (Pa_GetDeviceInfo pa device) ;;
      ret (Some (mkPaStreamParameters device channels format
                   (defaultLowInputLatency info) None))
  else ret None.

(** Lines 788-794. *)
Definition open_callback_context (pa : PortAudio) (py : Python) (channels : Z)
    (format : PaSampleFormat) (stream_callback : option PyObject)
  : M (option PyAudioCallbackContext) :=
  match stream_callback with
  | Some cb =>
      effect Py_INCREF ;;
      effect (malloc CallbackContext_block) ;;
      ret (Some (mkPyAudioCallbackContext cb (current_thread_id py)
                   (C.to_uint (Pa_GetSampleSize pa format * channels))))
  | None => ret None
  end.

(** Lines 796-845. *)
Definition open_native_stream (pa : PortAudio) (rate frames_per_buffer : Z)
    (stream_callback : option PyObject)
    (inputParameters outputParameters : option PaStreamParameters)
    (context : option PyAudioCallbackContext)
  : M _pyAudio_Stream :=
  let with_callback :=
    match stream_callback with Some _ => true | None => false end in
  (* the [int] is converted to the [unsigned long] of the prototype *)
  let framesPerBuffer := C.to_ulong frames_per_buffer in
  let '(err, stream) :=
    Pa_OpenStream pa inputParameters outputParameters rate framesPerBuffer
      paClipOff with_callback in
  effect (pa_call (Call_Pa_OpenStream inputParameters outputParameters rate
                     framesPerBuffer paClipOff with_callback)) ;;
  if negb (err =? paNoError)
  then raise (PyErr_SetObject PyExc_IOError err (Pa_GetErrorText pa err))
  else
  effect (pa_call (Call_Pa_GetStreamInfo stream)) ;;
  match Pa_GetStreamInfo pa stream with
  | None =>
      raise (PyErr_SetObject PyExc_IOError paInternalError
               "Could not get stream information")
  | Some streamInfo =>
      ret (mk_pyAudio_Stream stream inputParameters outputParameters
             (Some streamInfo) context 1)
  end.

(** [static PyObject *pa_get_stream_time(PyObject *self, PyObject *args)]
    on the stream object that ["O!"] parsed. *)
Definition pa_get_stream_time (pa : PortAudio)
    (streamObject : _pyAudio_Stream) (w : World)
  : Outcome PyObject * _pyAudio_Stream * World :=
  if negb (_is_open (Some streamObject)) then
    (Raise (PyErr_SetObject PyExc_IOError paBadStreamPtr "Stream closed"),
     streamObject, w)
  else
    let time := Pa_GetStreamTime pa (stream streamObject) in
    let w := pa_call (Call_Pa_GetStreamTime (stream streamObject)) w in
    if PrimFloat.eqb time PrimFloat.zero then
      let '(streamObject, w) := _cleanup_Stream_object streamObject w in
      (Raise (PyErr_SetObject PyExc_IOError paInternalError "Internal Error"),
       streamObject, w)
    else (Return (PyFloat time), streamObject, w).

(** [static PyObject *pa_write_stream(PyObject *self, PyObject *args)] with
    the locals that ["O!s#i|i"] parsed: the stream, [data] with its length
    [total_size], [total_frames] and [should_throw_exception]. *)
Definition pa_write_stream (pa : PortAudio)
    (streamObject : _pyAudio_Stream) (data : list byte) (total_size : Z)
    (total_frames : Z) (should_throw_exception : Z) (w : World)
  : Outcome PyObject * _pyAudio_Stream * World :=
  if total_frames <? 0 then
    (Raise (PyErr_SetString PyExc_ValueError "Invalid number of frames"),
     streamObject, w)
  else if negb (_is_open (Some streamObject)) then
    (Raise (PyErr_SetObject PyExc_IOError paBadStreamPtr "Stream closed"),
     streamObject, w)
  else
    let err := Pa_WriteStream pa (stream streamObject) data total_frames in
    let w := pa_call (Call_Pa_WriteStream (stream streamObject) data total_frames) w in
    let goto_error :=
      if negb (err =? paNoError) then
        if err =? paOutputUnderflowed then C.truthy should_throw_exception
        else true
      else false in
    if goto_error then
      let '(streamObject, w) := _cleanup_Stream_object streamObject w in
      (Raise (PyErr_SetObject PyExc_IOError err (Pa_GetErrorText pa err)),
       streamObject, w)
    else (Return Py_None, streamObject, w).

(** [rv = PyBytes_FromStringAndSize(NULL, num_bytes)] followed by
    [sampleBlock = PyBytes_AsString(rv)].  For a negative size [rv] is NULL,
    and [PyBytes_AsString] reads the type of its argument: a null
    dereference.  Otherwise [sampleBlock] is the buffer of a fresh object of
    [num_bytes] bytes (modelled as zeros); as the allocation is taken to
    succeed, it is never NULL. *)
Definition new_sample_block (num_bytes : Z) : CFault + option (list byte) :=
  if num_bytes <? 0 then inl NullDereference
  else inr (Some (repeat x00 (Z.to_nat num_bytes))).

(** [static PyObject *pa_read_stream(PyObject *self, PyObject *args)] with
    the locals that ["O!i|i"] parsed. *)
Definition pa_read_stream (pa : PortAudio)
    (streamObject : _pyAudio_Stream) (total_frames : Z)
    (should_raise_exception : Z) (w : World)
  : Outcome PyObject * _pyAudio_Stream * World :=
  if total_frames <? 0 then
    (Raise (PyErr_SetString PyExc_ValueError "Invalid number of frames"),
     streamObject, w)
  else if negb (_is_open (Some streamObject)) then
    (Raise (PyErr_SetObject PyExc_IOError paBadStreamPtr "Stream closed"),
     streamObject, w)
  else
    match inputParameters streamObject with
    | None =>
        (* inputParameters->channelCount through a null pointer *)
        (Fault NullDereference, streamObject, w)
    | Some inputParameters =>
        let num_bytes :=
          C.to_int (total_frames * channelCount inputParameters
                    * Pa_GetSampleSize pa (sampleFormat inputParameters)) in
        match new_sample_block num_bytes with
        | inl f => (Fault f, streamObject, w)
        | inr None =>
            (Raise (PyErr_SetObject PyExc_IOError paInsufficientMemory
                      "Out of memory"),
             streamObject, w)
        | inr (Some sampleBlock) =>
            let '(err, rv) :=
              Pa_ReadStream pa (stream streamObject) sampleBlock total_frames in
            let w := pa_call (Call_Pa_ReadStream (stream streamObject) total_frames) w in
            let goto_error :=
              if negb (err =? paNoError) then
                if err =? paInputOverflowed then C.truthy should_raise_exception
                else true
              else false in
            if goto_error then
              let '(streamObject, w) := _cleanup_Stream_object streamObject w in
              (Raise (PyErr_SetObject PyExc_IOError err (Pa_GetErrorText pa err)),
               streamObject, w)
            else (Return (PyBytes rv), streamObject, w)
        end
    end.

(** [static PyObject *pa_get_stream_write_available(PyObject *self,
    PyObject *args)] *)
Definition pa_get_stream_write_available (pa : PortAudio)
    (streamObject : _pyAudio_Stream) (w : World)
  : Outcome PyObject * _pyAudio_Stream * World :=
  if negb (_is_open (Some streamObject)) then
    (Raise (PyErr_SetObject PyExc_IOError paBadStreamPtr "Stream closed"),
     streamObject, w)
  else
    let frames := Pa_GetStreamWriteAvailable pa (stream streamObject) in
    let w := pa_call (Call_Pa_GetStreamWriteAvailable (stream streamObject)) w in
    (Return (PyLong frames), streamObject, w).

(** [static PyObject *pa_get_stream_read_available(PyObject *self,
    PyObject *args)] *)
Definition pa_get_stream_read_available (pa : PortAudio)
    (streamObject : _pyAudio_Stream) (w : World)
  : Outcome PyObject * _pyAudio_Stream * World :=
  if negb (_is_open (Some streamObject)) then
    (Raise (PyErr_SetObject PyExc_IOError paBadStreamPtr "Stream closed"),
     streamObject, w)
  else
    let frames := Pa_GetStreamReadAvailable pa (stream streamObject) in
    let w := pa_call (Call_Pa_GetStreamReadAvailable (stream streamObject)) w in
    (Return (PyLong frames), streamObject, w).

End PortAudioModule.

(** ** stream_io.c *)

Module StreamIO.

(** Modelled from the spec: [stream.h] is not among the sources.  Its
    [PyAudioStream] is the spec's stream handle (native stream reference,
    input parameters, output parameters, stream info snapshot, callback
    context, open flag), the fields of [_pyAudio_Stream], of which
    [stream_io.c] reads [stream] and [inputParameters]. *)
Definition PyAudioStream := _pyAudio_Stream.

(** [int stream_callback_cfunc(const void *input, void *output,
    unsigned long frameCount, const PaStreamCallbackTimeInfo *timeInfo,
    PaStreamCallbackFlags statusFlags, void *userData)] *)
Definition stream_callback_cfunc (py : Python)
    (input output : option (list byte)) (frameCount : Z)
    (timeInfo : PaStreamCallbackTimeInfo) (statusFlags : Z)
    (userData : PyAudioCallbackContext) (w : World)
  : Completion (Z * option (list byte) * World) :=
  let return_val := paAbort in
  let context := userData in
  let py_callback := callback context in
  let bytes_per_frame := frame_size context in
  let main_thread_id := main_thread_id context in
  let py_frame_count := PyLong frameCount in
  let py_time_info :=
    PyDict [("input_buffer_adc_time"%string, PyFloat (inputBufferAdcTime timeInfo));
            ("current_time"%string, PyFloat (currentTime timeInfo));
            ("output_buffer_dac_time"%string, PyFloat (outputBufferDacTime timeInfo))] in
  let py_status_flags := PyLong statusFlags in
  let py_input_data :=
    match input with
    | Some mem =>
        PyBytes (firstn (Z.to_nat (C.to_ulong (bytes_per_frame * frameCount))) mem)
    | None => Py_None
    end in
  match PyObject_CallFunctionObjArgs py py_callback
          [py_input_data; py_frame_count; py_time_info; py_status_flags] with
  | inl raised =>
      (* py_result == NULL, lines 69-85 *)
      let w := set_curexc raised w in
      match PyErr_Occurred w with
      | Some err =>
          let w := PyThreadState_SetAsyncExc main_thread_id err w in
          match PyErr_Print (Py_InspectFlag py) w with
          | Some w => Returned (return_val, output, w)
          | None => Py_Exit w
          end
      | None => Returned (return_val, output, w)
      end
  | inr py_result =>
      match PyArg_ParseTuple_z_hash_i py_result with
      | inl raised =>
          (* lines 88-112 *)
          let w := set_curexc raised w in
          match PyErr_Occurred w with
          | Some err =>
              let w := PyThreadState_SetAsyncExc main_thread_id err w in
              match PyErr_Print (Py_InspectFlag py) w with
              | Some w => Returned (paAbort, output, w)
              | None => Py_Exit w
              end
          | None => Returned (paAbort, output, w)
          end
      | inr (pData, output_len, return_val) =>
          if negb (return_val =? paComplete) && negb (return_val =? paAbort)
             && negb (return_val =? paContinue)
          then
            let w := set_curexc PyExc_ValueError w in
            let w := match PyErr_Occurred w with
                     | Some err => PyThreadState_SetAsyncExc main_thread_id err w
                     | None => w
                     end in
            match PyErr_Print (Py_InspectFlag py) w with
            | Some w => Returned (paAbort, output, w)
            | None => Py_Exit w
            end
          else
            match output with
            | Some output_data =>
                let pa_max_num_bytes := C.to_ulong (bytes_per_frame * frameCount) in
                let bytes_to_copy :=
                  if C.to_ulong output_len <? pa_max_num_bytes
                  then C.to_ulong output_len else pa_max_num_bytes in
                let output_data :=
                  match pData with
                  | Some src =>
                      if 0 <? bytes_to_copy
                      then C.memcpy output_data src bytes_to_copy
                      else output_data
                  | None => output_data
                  end in
                if bytes_to_copy <? pa_max_num_bytes
                then Returned (paComplete,
                               Some (C.memset output_data bytes_to_copy x00
                                       (pa_max_num_bytes - bytes_to_copy)),
                               w)
                else Returned (return_val, Some output_data, w)
            | None => Returned (return_val, None, w)
            end
      end
  end.

Section Helpers.

(** The two helpers that [stream_io.c] takes from [stream.h]; their
    bodies are not among the sources, so the functions below are
    parameterised by them.
    [int is_stream_open(PyAudioStream *stream)] and
    [void cleanup_stream(PyAudioStream *stream)]. *)
Variable is_stream_open : PyAudioStream -> bool.
Variable cleanup_stream : PyAudioStream -> World -> PyAudioStream * World.

(** [PyObject *pa_write_stream(PyObject *self, PyObject *args)] *)
Definition pa_write_stream (pa : PortAudio)
    (streamObject : PyAudioStream) (data : list byte) (total_size : Z)
    (total_frames : Z) (should_throw_exception : Z) (w : World)
  : Outcome PyObject * PyAudioStream * World :=
  if total_frames <? 0 then
    (Raise (PyErr_SetString PyExc_ValueError "Invalid number of frames"),
     streamObject, w)
  else if negb (is_stream_open streamObject) then
    (Raise (PyErr_SetObject PyExc_IOError paBadStreamPtr "Stream closed"),
     streamObject, w)
  else
    let err := Pa_WriteStream pa (stream streamObject) data total_frames in
    let w := pa_call (Call_Pa_WriteStream (stream streamObject) data total_frames) w in
    let goto_error :=
      if negb (err =? paNoError) then
        if err =? paOutputUnderflowed then C.truthy should_throw_exception
        else true
      else false in
    if goto_error then
      let '(streamObject, w) := cleanup_stream streamObject w in
      (Raise (PyErr_SetObject PyExc_IOError err (Pa_GetErrorText pa err)),
       streamObject, w)
    else (Return Py_None, streamObject, w).

(** [PyObject *pa_read_stream(PyObject *self, PyObject *args)] *)
Definition pa_read_stream (pa : PortAudio)
    (streamObject : PyAudioStream) (total_frames : Z)
    (should_raise_exception : Z) (w : World)
  : Outcome PyObject * PyAudioStream * World :=
  if total_frames <? 0 then
    (Raise (PyErr_SetString PyExc_ValueError "Invalid number of frames"),
     streamObject, w)
  else if negb (is_stream_open streamObject) then
    (Raise (PyErr_SetObject PyExc_IOError paBadStreamPtr "Stream closed"),
     streamObject, w)
  else
    match inputParameters streamObject with
    | None => (Fault NullDereference, streamObject, w)
    | Some inputParameters =>
        let num_bytes :=
          C.to_int (total_frames * channelCount inputParameters
                    * Pa_GetSampleSize pa (sampleFormat inputParameters)) in
        match PortAudioModule.new_sample_block num_bytes with
        | inl f => (Fault f, streamObject, w)
        | inr None =>
            (Raise (PyErr_SetObject PyExc_IOError paInsufficientMemory
                      "Out of memory"),
             streamObject, w)
        | inr (Some sampleBlock) =>
            let '(err, rv) :=
              Pa_ReadStream pa (stream streamObject) sampleBlock total_frames in
            let w := pa_call (Call_Pa_ReadStream (stream streamObject) total_frames) w in
            let goto_error :=
              if negb (err =? paNoError) then
                if err =? paInputOverflowed then C.truthy should_raise_exception
                else true
              else false in
            if goto_error then
              let '(streamObject, w) := cleanup_stream streamObject w in
              (Raise (PyErr_SetObject PyExc_IOError err (Pa_GetErrorText pa err)),
               streamObject, w)
            else (Return (PyBytes rv), streamObject, w)
        end
    end.

(** [PyObject *pa_get_stream_write_available(PyObject *self,
    PyObject *args)] *)
Definition pa_get_stream_write_available (pa : PortAudio)
    (streamObject : PyAudioStream) (w : World)
  : Outcome PyObject * PyAudioStream * World :=
  if negb (is_stream_open streamObject) then
    (Raise (PyErr_SetObject PyExc_IOError paBadStreamPtr "Stream closed"),
     streamObject, w)
  else
    let frames := Pa_GetStreamWriteAvailable pa (stream streamObject) in
    let w := pa_call (Call_Pa_GetStreamWriteAvailable (stream streamObject)) w in
    (Return (PyLong frames), streamObject, w).

(** [PyObject *pa_get_stream_read_available(PyObject *self,
    PyObject *args)] *)
Definition pa_get_stream_read_available (pa : PortAudio)
    (streamObject : PyAudioStream) (w : World)
  : Outcome PyObject * PyAudioStream * World :=
  if negb (is_stream_open streamObject) then
    (Raise (PyErr_SetObject PyExc_IOError paBadStreamPtr "Stream closed"),
     streamObject, w)
  else
    let frames := Pa_GetStreamReadAvailable pa (stream streamObject) in
    let w := pa_call (Call_Pa_GetStreamReadAvailable (stream streamObject)) w in
    (Return (PyLong frames), streamObject, w).

End Helpers.

End StreamIO.

(** ** Vocabulary of the statements *)

(** The arguments with which the bridge calls the registered callback:
    the input bytes (or [None]), the frame count, the timing record and the
    status flags. *)
Definition callback_arguments (bytes_per_frame : Z)
    (input : option (list byte)) (frameCount : Z)
    (timeInfo : PaStreamCallbackTimeInfo) (statusFlags : Z) : list PyObject :=
  [ match input with
    | Some mem =>
        PyBytes (firstn (Z.to_nat (C.to_ulong (bytes_per_frame * frameCount))) mem)
    | None => Py_None
    end;
    PyLong frameCount;
    PyDict [("input_buffer_adc_time"%string, PyFloat (inputBufferAdcTime timeInfo));
            ("current_time"%string, PyFloat (currentTime timeInfo));
            ("output_buffer_dac_time"%string, PyFloat (outputBufferDacTime timeInfo))];
    PyLong statusFlags ].

(** The bytes that the first component of the callback's result stands
    for: those of a [bytes] or [str] object, none for [None]. *)
Definition returned_data (o : PyObject) : option (list byte) :=
  match o with
  | Py_None => Some []
  | PyBytes b | PyUnicode b => Some b
  | _ => None
  end.


(** A continuation code that the bridge accepts. *)
Definition valid_continuation (code : Z) : Prop :=
  code = paContinue \/ code = paComplete \/ code = paAbort.

(** The stream object after a full teardown. *)
Definition closed_stream : _pyAudio_Stream :=
  mk_pyAudio_Stream None None None None None 0.

(** The blocks of the heap that a stream object owns. *)
Definition owned_blocks (s : _pyAudio_Stream) : list Block :=
  match callbackContext s with Some _ => [CallbackContext_block] | None => [] end
  ++ match inputParameters s with Some _ => [InputParameters_block] | None => [] end
  ++ match outputParameters s with Some _ => [OutputParameters_block] | None => [] end.

(** The write statuses after which [pa_write_stream] returns normally. *)
Definition write_status_tolerated (err should_throw_exception : Z) : bool :=
  (err =? paNoError)
  || ((err =? paOutputUnderflowed) && negb (C.truthy should_throw_exception)).

(** The blocks [pa_open] has allocated when it reaches [Pa_OpenStream]. *)
Definition blocks_allocated (input output : Z)
    (stream_callback : option PyObject) : list Block :=
  match stream_callback with Some _ => [CallbackContext_block] | None => [] end
  ++ (if C.truthy input then [InputParameters_block] else [])
  ++ (if C.truthy output then [OutputParameters_block] else []).

(** A device index that PortAudio knows. *)
Definition device_in_range (pa : PortAudio) (d : PaDeviceIndex) : Prop :=
  0 <= d < Pa_GetDeviceCount pa.

(** ** A small PortAudio and interpreter to run the code on *)

Module Sample.

Definition paInt16 : PaSampleFormat := 8.
Definition paInvalidSampleRate : PaError := -9997.

Definition device_info : PaDeviceInfo :=
  mkPaDeviceInfo PrimFloat.one PrimFloat.one.

Definition stream_info : PaStreamInfo :=
  mkPaStreamInfo 1 PrimFloat.one PrimFloat.one PrimFloat.one.

Definition sample_size (f : PaSampleFormat) : PaError :=
  if f =? 1 then 4 else if f =? 2 then 4 else if f =? 4 then 3
  else if f =? 8 then 2 else if f =? 16 then 1 else if f =? 32 then 1
  else -9994.

Definition error_text (e : PaError) : string :=
  if e =? 0 then "Success"
  else if e =? paInvalidSampleRate then "Invalid sample rate"
  else if e =? paOutputUnderflowed then "Output underflowed"
  else if e =? paInputOverflowed then "Input overflowed"
  else "PortAudio error".

(** Two devices (0 is the default input, 1 the default output);
    [Pa_OpenStream] answers [open_err], the stream time is [time], blocking
    reads and writes answer [io_err], both availability queries answer
    [available]. *)
Definition portaudio (open_err : PaError) (time : float) (io_err : PaError)
    (available : Z) : PortAudio :=
  {| Pa_GetDeviceCount := 2;
     Pa_GetDefaultInputDevice := 0;
     Pa_GetDefaultOutputDevice := 1;
     Pa_GetDeviceInfo := fun i =>
       if (0 <=? i) && (i <? 2) then Some device_info else None;
     Pa_GetSampleSize := sample_size;
     Pa_GetErrorText := error_text;
     Pa_OpenStream := fun _ _ _ _ _ _ =>
       if open_err =? paNoError then (paNoError, Some 1) else (open_err, None);
     Pa_GetStreamInfo := fun s =>
       match s with Some _ => Some stream_info | None => None end;
     Pa_GetStreamTime := fun _ => time;
     Pa_WriteStream := fun _ _ _ => io_err;
     Pa_ReadStream := fun _ buf _ => (io_err, buf);
     Pa_GetStreamWriteAvailable := fun _ => available;
     Pa_GetStreamReadAvailable := fun _ => available |}.

(** The same library when [Pa_OpenStream] succeeds and [Pa_GetStreamInfo]
    then answers a null pointer. *)
Definition portaudio_without_info : PortAudio :=
  let pa := portaudio paNoError PrimFloat.one paNoError 0 in
  mkPortAudio (Pa_GetDeviceCount pa) (Pa_GetDefaultInputDevice pa)
    (Pa_GetDefaultOutputDevice pa) (Pa_GetDeviceInfo pa)
    (Pa_GetSampleSize pa) (Pa_GetErrorText pa) (Pa_OpenStream pa)
    (fun _ => None) (Pa_GetStreamTime pa) (Pa_WriteStream pa)
    (Pa_ReadStream pa) (Pa_GetStreamWriteAvailable pa)
    (Pa_GetStreamReadAvailable pa).

(** The integer part of a float; none for an infinity or a nan. *)
Definition float_trunc (d : float) : option Z :=
  match Prim2SF d with
  | S754_zero _ => Some 0
  | S754_finite sign m e =>
      let magnitude :=
        if 0 <=? e then Z.pos m * 2 ^ e else Z.pos m / 2 ^ (- e) in
      Some (if sign then - magnitude else magnitude)
  | S754_infinity _ | S754_nan => None
  end.

(** [PyNumber_Long] on the objects of the model: an integer is itself, a
    float is truncated unless it is an infinity or a nan, nothing else
    converts. *)
Definition number_long (o : PyObject) : option PyObject :=
  match o with
  | PyLong n => Some (PyLong n)
  | PyFloat d =>
      match float_trunc d with
      | Some n => Some (PyLong n)
      | None => None
      end
  | _ => None
  end.

(** An interpreter, not started with [-i], whose callback always answers
    [result]; the calling thread has identifier 7. *)
Definition python (result : PyExcType + PyObject) : Python :=
  {| PyObject_CallFunctionObjArgs := fun _ _ => result;
     PyNumber_Long := number_long;
     current_thread_id := 7;
     Py_InspectFlag := false |}.

Definition context : PyAudioCallbackContext :=
  mkPyAudioCallbackContext (PyCallable 0) 7 4.

Definition time_info : PaStreamCallbackTimeInfo :=
  mkPaStreamCallbackTimeInfo PrimFloat.zero PrimFloat.one PrimFloat.one.

Definition output_parameters : PaStreamParameters :=
  mkPaStreamParameters 1 2 paInt16 PrimFloat.one None.

Definition input_parameters : PaStreamParameters :=
  mkPaStreamParameters 0 2 paInt16 PrimFloat.one None.

(** An open output-only stream in blocking mode, and the world that holds
    its parameter block. *)
Definition output_only_stream : _pyAudio_Stream :=
  mk_pyAudio_Stream (Some 1) None (Some output_parameters) (Some stream_info)
    None 1.

Definition output_only_world : World :=
  mkWorld [OutputParameters_block] 0 [] None [] [].

(** An open input-only stream in blocking mode. *)
Definition input_only_stream : _pyAudio_Stream :=
  mk_pyAudio_Stream (Some 1) (Some input_parameters) None (Some stream_info)
    None 1.

End Sample.

(** ** _portaudiomodule.c: the stream object, lifecycle and queries *)

(** More of portaudio.h. *)
Definition paFormatIsSupported : PaError := 0.
Definition paStreamIsStopped : PaError := -9983.
Definition paStreamIsNotStopped : PaError := -9982.

(** The entry points of PortAudio that the functions below call. *)
Record PortAudioControl := mkPortAudioControl {
  Pa_Initialize : PaError;
  Pa_StartStream : option PaStream -> PaError;
  Pa_StopStream : option PaStream -> PaError;
  Pa_AbortStream : option PaStream -> PaError;
  Pa_IsStreamStopped : option PaStream -> PaError;
  Pa_IsStreamActive : option PaStream -> PaError;
  Pa_GetStreamCpuLoad : option PaStream -> float;
  (** input parameters, output parameters, sample rate *)
  Pa_IsFormatSupported : option PaStreamParameters -> option PaStreamParameters ->
                         float -> PaError
}.

Inductive PaControlCall :=
| Call_Pa_Initialize
| Call_Pa_Terminate
| Call_Pa_StartStream (s : option PaStream)
| Call_Pa_StopStream (s : option PaStream)
| Call_Pa_AbortStream (s : option PaStream)
| Call_Pa_IsStreamStopped (s : option PaStream)
| Call_Pa_IsStreamActive (s : option PaStream)
| Call_Pa_GetStreamCpuLoad (s : option PaStream)
| Call_Pa_IsFormatSupported (inputParameters outputParameters : option PaStreamParameters)
    (sampleRate : float).

(** The world together with the calls made to the entry points of
    [PortAudioControl], oldest first.  A function below makes at most one of
    them, before any teardown. *)
Record Host := mkHost {
  world : World;
  control_calls : list PaControlCall
}.

Definition control (c : PaControlCall) (h : Host) : Host :=
  mkHost (world h) (control_calls h ++ [c]).

(** An error raised with [Py_BuildValue("(s,i)", text, code)]: the text
    comes first. *)
Record TextCodeError := mkTextCodeError {
  tc_type : PyExcType;
  tc_text : string;
  tc_code : Z
}.

Module StreamObject.

(** [static void _pyAudio_Stream_dealloc(_pyAudio_Stream *self)]: the
    teardown, after which the object itself is given back to the
    interpreter. *)
Definition _pyAudio_Stream_dealloc (self : _pyAudio_Stream) (w : World) : World :=
  snd (PortAudioModule._cleanup_Stream_object self w).

(** [static PyObject *_pyAudio_Stream_get_structVersion(_pyAudio_Stream *self,
    void *closure)] *)
Definition _pyAudio_Stream_get_structVersion (self : _pyAudio_Stream)
  : Outcome PyObject :=
  if negb (PortAudioModule._is_open (Some self)) then
    Raise (PyErr_SetObject PyExc_IOError paBadStreamPtr "Stream closed")
  else
    match streamInfo self with
    | None =>
        Raise (PyErr_SetObject PyExc_IOError paBadStreamPtr
                 "No StreamInfo available")
    | Some info => Return (PyLong (structVersion info))
    end.

(** [static PyObject *_pyAudio_Stream_get_inputLatency(_pyAudio_Stream *self,
    void *closure)] *)
Definition _pyAudio_Stream_get_inputLatency (self : _pyAudio_Stream)
  : Outcome PyObject :=
  if negb (PortAudioModule._is_open (Some self)) then
    Raise (PyErr_SetObject PyExc_IOError paBadStreamPtr "Stream closed")
  else
    match streamInfo self with
    | None =>
        Raise (PyErr_SetObject PyExc_IOError paBadStreamPtr
                 "No StreamInfo available")
    | Some info => Return (PyFloat (inputLatency info))
    end.

(** [static PyObject *_pyAudio_Stream_get_outputLatency(_pyAudio_Stream *self,
    void *closure)] *)
Definition _pyAudio_Stream_get_outputLatency (self : _pyAudio_Stream)
  : Outcome PyObject :=
  if negb (PortAudioModule._is_open (Some self)) then
    Raise (PyErr_SetObject PyExc_IOError paBadStreamPtr "Stream closed")
  else
    match streamInfo self with
    | None =>
        Raise (PyErr_SetObject PyExc_IOError paBadStreamPtr
                 "No StreamInfo available")
    | Some info => Return (PyFloat (outputLatency info))
    end.

(** [static PyObject *_pyAudio_Stream_get_sampleRate(_pyAudio_Stream *self,
    void *closure)] *)
Definition _pyAudio_Stream_get_sampleRate (self : _pyAudio_Stream)
  : Outcome PyObject :=
  if negb (PortAudioModule._is_open (Some self)) then
    Raise (PyErr_SetObject PyExc_IOError paBadStreamPtr "Stream closed")
  else
    match streamInfo self with
    | None =>
        Raise (PyErr_SetObject PyExc_IOError paBadStreamPtr
                 "No StreamInfo available")
    | Some info => Return (PyFloat (sampleRate info))
    end.

(** [static PyObject *pa_close(PyObject *self, PyObject *args)] *)
Definition pa_close (streamObject : _pyAudio_Stream) (w : World)
  : Outcome PyObject * _pyAudio_Stream * World :=
  let '(streamObject, w) :=
    PortAudioModule._cleanup_Stream_object streamObject w in
  (Return Py_None, streamObject, w).

End StreamObject.

Module StreamControl.

(** [_cleanup_Stream_object] on the world of a host. *)
Definition cleanup (streamObject : _pyAudio_Stream) (h : Host)
  : _pyAudio_Stream * Host :=
  let '(streamObject, w) :=
    PortAudioModule._cleanup_Stream_object streamObject (world h) in
  (streamObject, mkHost w (control_calls h)).

(** [static PyObject *pa_initialize(PyObject *self, PyObject *args)] *)
Definition pa_initialize (pc : PortAudioControl) (pa : PortAudio) (h : Host)
  : Outcome PyObject * Host :=
  let err := Pa_Initialize pc in
  let h := control Call_Pa_Initialize h in
  if negb (err =? paNoError) then
    let h := control Call_Pa_Terminate h in
    (Raise (PyErr_SetObject PyExc_IOError err (Pa_GetErrorText pa err)), h)
  else (Return Py_None, h).

(** [static PyObject *pa_terminate(PyObject *self, PyObject *args)] *)
Definition pa_terminate (h : Host) : Outcome PyObject * Host :=
  (Return Py_None, control Call_Pa_Terminate h).

(** [static PyObject *pa_get_sample_size(PyObject *self, PyObject *args)]
    with the [format] that ["k"] parsed. *)
Definition pa_get_sample_size (pa : PortAudio) (format : PaSampleFormat)
  : TextCodeError + PyObject :=
  let size_in_bytes := Pa_GetSampleSize pa format in
  if size_in_bytes <? 0 then
    inl (mkTextCodeError PyExc_ValueError (Pa_GetErrorText pa size_in_bytes)
           size_in_bytes)
  else inr (PyLong size_in_bytes).

(** [static PyObject *pa_is_format_supported(PyObject *self, PyObject *args,
    PyObject *kwargs)].  An optional argument that the call leaves out is
    [None] and keeps the value the code gave the local beforehand: -1, which
    is [ULONG_MAX] for the two formats.  The result [true] is [Py_True]. *)
Definition pa_is_format_supported (pc : PortAudioControl) (pa : PortAudio)
    (sample_rate : float)
    (input_device_arg input_channels_arg input_format_arg : option Z)
    (output_device_arg output_channels_arg output_format_arg : option Z)
    (h : Host)
  : (TextCodeError + bool) * Host :=
  let local (arg : option Z) : Z :=
    match arg with Some v => v | None => -1 end in
  let input_device := local input_device_arg in
  let input_channels := local input_channels_arg in
  let output_device := local output_device_arg in
  let output_channels := local output_channels_arg in
  let input_format := C.to_ulong (local input_format_arg) in
  let output_format := C.to_ulong (local output_format_arg) in
  let inputParams :=
    mkPaStreamParameters input_device input_channels input_format
      PrimFloat.zero None in
  let outputParams :=
    mkPaStreamParameters output_device output_channels output_format
      PrimFloat.zero None in
  let inputParameters :=
    if input_device <? 0 then None else Some inputParams in
  let outputParameters :=
    if output_device <? 0 then None else Some outputParams in
  let error :=
    Pa_IsFormatSupported pc inputParameters outputParameters sample_rate in
  let h :=
    control (Call_Pa_IsFormatSupported inputParameters outputParameters
               sample_rate) h in
  if error =? paFormatIsSupported then (inr true, h)
  else (inl (mkTextCodeError PyExc_ValueError (Pa_GetErrorText pa error) error),
        h).

(** [static PyObject *pa_start_stream(PyObject *self, PyObject *args)] *)
Definition pa_start_stream (pc : PortAudioControl) (pa : PortAudio)
    (streamObject : _pyAudio_Stream) (h : Host)
  : Outcome PyObject * _pyAudio_Stream * Host :=
  if negb (PortAudioModule._is_open (Some streamObject)) then
    (Raise (PyErr_SetObject PyExc_IOError paBadStreamPtr "Stream closed"),
     streamObject, h)
  else
    let err := Pa_StartStream pc (stream streamObject) in
    let h := control (Call_Pa_StartStream (stream streamObject)) h in
    if negb (err =? paNoError) && negb (err =? paStreamIsNotStopped) then
      let '(streamObject, h) := cleanup streamObject h in
      (Raise (PyErr_SetObject PyExc_IOError err (Pa_GetErrorText pa err)),
       streamObject, h)
    else (Return Py_None, streamObject, h).

(** [static PyObject *pa_stop_stream(PyObject *self, PyObject *args)] *)
Definition pa_stop_stream (pc : PortAudioControl) (pa : PortAudio)
    (streamObject : _pyAudio_Stream) (h : Host)
  : Outcome PyObject * _pyAudio_Stream * Host :=
  if negb (PortAudioModule._is_open (Some streamObject)) then
    (Raise (PyErr_SetString PyExc_IOError "Stream not open"), streamObject, h)
  else
    let err := Pa_StopStream pc (stream streamObject) in
    let h := control (Call_Pa_StopStream (stream streamObject)) h in
    if negb (err =? paNoError) && negb (err =? paStreamIsStopped) then
      let '(streamObject, h) := cleanup streamObject h in
      (Raise (PyErr_SetObject PyExc_IOError err (Pa_GetErrorText pa err)),
       streamObject, h)
    else (Return Py_None, streamObject, h).

(** [static PyObject *pa_abort_stream(PyObject *self, PyObject *args)] *)
Definition pa_abort_stream (pc : PortAudioControl) (pa : PortAudio)
    (streamObject : _pyAudio_Stream) (h : Host)
  : Outcome PyObject * _pyAudio_Stream * Host :=
  if negb (PortAudioModule._is_open (Some streamObject)) then
    (Raise (PyErr_SetString PyExc_IOError "Stream not open"), streamObject, h)
  else
    let err := Pa_AbortStream pc (stream streamObject) in
    let h := control (Call_Pa_AbortStream (stream streamObject)) h in
    if negb (err =? paNoError) && negb (err =? paStreamIsStopped) then
      let '(streamObject, h) := cleanup streamObject h in
      (Raise (PyErr_SetObject PyExc_IOError err (Pa_GetErrorText pa err)),
       streamObject, h)
    else (Return Py_None, streamObject, h).

(** [static PyObject *pa_is_stream_stopped(PyObject *self, PyObject *args)];
    [true] is [Py_True], [false] is [Py_False]. *)
Definition pa_is_stream_stopped (pc : PortAudioControl) (pa : PortAudio)
    (streamObject : _pyAudio_Stream) (h : Host)
  : Outcome bool * _pyAudio_Stream * Host :=
  if negb (PortAudioModule._is_open (Some streamObject)) then
    (Raise (PyErr_SetObject PyExc_IOError paBadStreamPtr "Stream closed"),
     streamObject, h)
  else
    let err := Pa_IsStreamStopped pc (stream streamObject) in
    let h := control (Call_Pa_IsStreamStopped (stream streamObject)) h in
    if err <? 0 then
      let '(streamObject, h) := cleanup streamObject h in
      (Raise (PyErr_SetObject PyExc_IOError err (Pa_GetErrorText pa err)),
       streamObject, h)
    else if C.truthy err then (Return true, streamObject, h)
    else (Return false, streamObject, h).

(** [static PyObject *pa_is_stream_active(PyObject *self, PyObject *args)] *)
Definition pa_is_stream_active (pc : PortAudioControl) (pa : PortAudio)
    (streamObject : _pyAudio_Stream) (h : Host)
  : Outcome bool * _pyAudio_Stream * Host :=
  if negb (PortAudioModule._is_open (Some streamObject)) then
    (Raise (PyErr_SetString PyExc_IOError "Stream not open"), streamObject, h)
  else
    let err := Pa_IsStreamActive pc (stream streamObject) in
    let h := control (Call_Pa_IsStreamActive (stream streamObject)) h in
    if err <? 0 then
      let '(streamObject, h) := cleanup streamObject h in
      (Raise (PyErr_SetObject PyExc_IOError err (Pa_GetErrorText pa err)),
       streamObject, h)
    else if C.truthy err then (Return true, streamObject, h)
    else (Return false, streamObject, h).

(** [static PyObject *pa_get_stream_cpu_load(PyObject *self, PyObject *args)] *)
Definition pa_get_stream_cpu_load (pc : PortAudioControl)
    (streamObject : _pyAudio_Stream) (h : Host)
  : Outcome PyObject * _pyAudio_Stream * Host :=
  if negb (PortAudioModule._is_open (Some streamObject)) then
    (Raise (PyErr_SetObject PyExc_IOError paBadStreamPtr "Stream closed"),
     streamObject, h)
  else
    let cpuload := Pa_GetStreamCpuLoad pc (stream streamObject) in
    let h := control (Call_Pa_GetStreamCpuLoad (stream streamObject)) h in
    (Return (PyFloat cpuload), streamObject, h).

End StreamControl.

(** ** More vocabulary and samples *)

(** The read statuses after which [pa_read_stream] returns the buffer. *)
Definition read_status_tolerated (err should_raise_exception : Z) : bool :=
  (err =? paNoError)
  || ((err =? paInputOverflowed) && negb (C.truthy should_raise_exception)).

(** The error every function reports first on a closed handle, in its two
    spellings. *)
Definition stream_closed_error : PyErr :=
  PyErr_SetObject PyExc_IOError paBadStreamPtr "Stream closed".

Definition stream_not_open_error : PyErr :=
  PyErr_SetString PyExc_IOError "Stream not open".

Module Sample2.

(** A PortAudio whose lifecycle calls all answer [err], whose state queries
    answer [state], and that supports a format exactly when an output
    direction is asked for. *)
Definition control (err state : PaError) : PortAudioControl :=
  {| Pa_Initialize := err;
     Pa_StartStream := fun _ => err;
     Pa_StopStream := fun _ => err;
     Pa_AbortStream := fun _ => err;
     Pa_IsStreamStopped := fun _ => state;
     Pa_IsStreamActive := fun _ => state;
     Pa_GetStreamCpuLoad := fun _ => PrimFloat.zero;
     Pa_IsFormatSupported := fun _ outp _ =>
       match outp with Some _ => paFormatIsSupported | None => paInvalidDevice end |}.

Definition host (w : World) : Host := mkHost w [].

(** An open duplex stream in callback mode, and the world that holds what it
    owns. *)
Definition callback_stream : _pyAudio_Stream :=
  mk_pyAudio_Stream (Some 1) (Some Sample.input_parameters)
    (Some Sample.output_parameters) (Some Sample.stream_info)
    (Some Sample.context) 1.

Definition callback_world : World :=
  mkWorld [CallbackContext_block; InputParameters_block; OutputParameters_block]
    1 [] None [] [].

End Sample2.

(** What a teardown of [s] makes of the world [before]: the native stream
    is closed if there is one, the reference on the callback is dropped if
    there is a context, and the blocks that [s] owns are freed. *)
Definition torn_down (s : _pyAudio_Stream) (before after : World) : Prop :=
  pa_calls after
  = pa_calls before
    ++ match stream s with Some x => [Call_Pa_CloseStream x] | None => [] end
  /\ callback_refs after
     = callback_refs before
       - match callbackContext s with Some _ => 1 | None => 0 end
  /\ forall rest, heap before = owned_blocks s ++ rest -> heap after = rest.

Module Sample3.

(** The PortAudio of [Sample] on a machine without a default input device
    ([paNoDevice]). *)
Definition portaudio_without_input : PortAudio :=
  let pa := Sample.portaudio paNoError PrimFloat.one paNoError 0 in
  mkPortAudio (Pa_GetDeviceCount pa) (-1)
    (Pa_GetDefaultOutputDevice pa) (Pa_GetDeviceInfo pa)
    (Pa_GetSampleSize pa) (Pa_GetErrorText pa) (Pa_OpenStream pa)
    (Pa_GetStreamInfo pa) (Pa_GetStreamTime pa) (Pa_WriteStream pa)
    (Pa_ReadStream pa) (Pa_GetStreamWriteAvailable pa)
    (Pa_GetStreamReadAvailable pa).

End Sample3.

(** * Properties *)

(** ** Memory primitives *)

Lemma to_ulong_small (z : Z) : 0 <= z < 2 ^ 64 -> C.to_ulong z = z.
Proof. intros H. unfold C.to_ulong. apply Z.mod_small. exact H. Qed.

(** Copying a whole buffer [src] to the front of [dst] and clearing the next
    [n] bytes leaves [src], then [n] zero bytes, then the tail of [dst]. *)
Lemma memset_after_memcpy (dst src : list byte) (n : Z) :
  0 <= n ->
  C.memset (C.memcpy dst src (Z.of_nat (List.length src)))
           (Z.of_nat (List.length src)) x00 n
  = src ++ repeat x00 (Z.to_nat n)
        ++ skipn (Z.to_nat (Z.of_nat (List.length src) + n)) dst.
Proof.
  intros Hn. unfold C.memset, C.memcpy.
  rewrite Nat2Z.id, firstn_all.
  rewrite firstn_app, firstn_all, Nat.sub_diag, firstn_O, app_nil_r.
  rewrite skipn_app.
  rewrite (skipn_all2 src) by lia.
  rewrite skipn_skipn. simpl.
  do 3 f_equal. lia.
Qed.

Lemma free_malloc (b : Block) (w : World) : free b (malloc b w) = w.
Proof. destruct w, b; reflexivity. Qed.

(** ** The two copies of the callback bridge *)

Lemma bridge_copies_agree py input output frameCount timeInfo statusFlags
      userData w :
  StreamIO.stream_callback_cfunc py input output frameCount timeInfo
    statusFlags userData w
  = PortAudioModule._stream_callback_cfunction py input output frameCount
      timeInfo statusFlags userData w.
Proof. reflexivity. Qed.

(** ** The callback bridge: copying and padding the output (C1) *)

Lemma parse_valid_result (obj : PyObject) (data : list byte) (code : Z) :
  returned_data obj = Some data ->
  valid_continuation code ->
  PyArg_ParseTuple_z_hash_i (PyTuple [obj; PyLong code])
  = inr (match obj with Py_None => None | _ => Some data end,
         Z.of_nat (List.length data), code).
Proof.
  intros Hdata [-> | [-> | ->]];
    destruct obj; try discriminate Hdata;
    injection Hdata as <-; reflexivity.
Qed.

Lemma valid_continuation_accepted (code : Z) :
  valid_continuation code ->
  negb (code =? paComplete) && negb (code =? paAbort) && negb (code =? paContinue)
  = false.
Proof.
  intros [-> | [-> | ->]]; reflexivity.
Qed.

(** The copy of lines 549-568 on a parsed result: [pData] is the null
    pointer only together with a length of zero. *)
Lemma copy_for_playback (pData : option (list byte)) (data output_data : list byte)
      (needed : Z) :
  pData = Some data \/ (pData = None /\ data = []) ->
  0 <= needed ->
  let len := Z.of_nat (List.length data) in
  let bytes_to_copy := if len <? needed then len else needed in
  let copied :=
    match pData with
    | Some src =>
        if 0 <? bytes_to_copy then C.memcpy output_data src bytes_to_copy
        else output_data
    | None => output_data
    end in
  (len < needed ->
   C.memset copied bytes_to_copy x00 (needed - bytes_to_copy)
   = data ++ repeat x00 (Z.to_nat (needed - len))
          ++ skipn (Z.to_nat needed) output_data)
  /\ (needed <= len ->
      copied = firstn (Z.to_nat needed) data ++ skipn (Z.to_nat needed) output_data).
Proof.
  intros Hp Hneeded len bytes_to_copy copied. subst copied bytes_to_copy.
  assert (Hempty : forall out : list byte,
             C.memset out 0 x00 needed
             = repeat x00 (Z.to_nat needed) ++ skipn (Z.to_nat needed) out).
  { intros out. unfold C.memset. reflexivity. }
  split; intros Hcmp.
  - destruct (Z.ltb_spec len needed) as [_ | Hge]; [| lia].
    destruct Hp as [-> | [-> ->]].
    + destruct (Z.ltb_spec 0 len) as [Hpos | Hzero].
      * pose proof (memset_after_memcpy output_data data (needed - len)) as E.
        fold len in E. rewrite E by lia.
        replace (len + (needed - len)) with needed by lia. reflexivity.
      * assert (Hnil : data = []).
        { apply length_zero_iff_nil. unfold len in *. lia. }
        subst data. unfold len. simpl List.length. simpl Z.of_nat.
        rewrite Z.sub_0_r. apply Hempty.
    + unfold len. simpl List.length. simpl Z.of_nat.
      rewrite Z.sub_0_r. apply Hempty.
  - destruct (Z.ltb_spec len needed) as [Hlt | _]; [lia |].
    destruct Hp as [-> | [-> ->]].
    + destruct (Z.ltb_spec 0 needed) as [Hpos | Hzero].
      * reflexivity.
      * replace needed with 0 by lia. reflexivity.
    + replace needed with 0 by (unfold len in *; simpl in *; lia).
      reflexivity.
Qed.

(** C1.  On a stream with an output buffer, when the callback returns
    [(data, code)] with a valid continuation code and the device buffer holds
    the [needed = bytes_per_frame * frameCount] bytes of the period:
    - if [len(data) < needed], the buffer receives the [len(data)] bytes of
      [data], then zeros up to [needed], and the bridge returns [paComplete]
      whatever [code] was;
    - if [len(data) >= needed], the buffer receives the first [needed] bytes
      of [data] and the bridge returns [code].
    Bytes of the buffer after [needed] are not written, and the world is
    left as it was.  [data] is a [bytes] or [str] object, or [None] for no
    bytes at all.  This holds for both copies of the bridge. *)
Theorem callback_output_copy_and_padding :
  forall (py : Python) (input : option (list byte)) (output_data : list byte)
         (frameCount : Z) (timeInfo : PaStreamCallbackTimeInfo)
         (statusFlags : Z) (userData : PyAudioCallbackContext) (w : World)
         (returned : PyObject) (data : list byte) (code : Z),
    let needed := frame_size userData * frameCount in
    let len := Z.of_nat (List.length data) in
    PyObject_CallFunctionObjArgs py (callback userData)
      (callback_arguments (frame_size userData) input frameCount timeInfo
         statusFlags)
    = inr (PyTuple [returned; PyLong code]) ->
    returned_data returned = Some data ->
    valid_continuation code ->
    0 <= needed < 2 ^ 64 ->
    len < 2 ^ 63 ->
    needed <= Z.of_nat (List.length output_data) ->
    forall bridge,
      bridge = PortAudioModule._stream_callback_cfunction \/
      bridge = StreamIO.stream_callback_cfunc ->
      (len < needed ->
       let padded :=
         data ++ repeat x00 (Z.to_nat (needed - len))
              ++ skipn (Z.to_nat needed) output_data in
       bridge py input (Some output_data) frameCount timeInfo statusFlags
         userData w
       = Returned (paComplete, Some padded, w)
       /\ List.length padded = List.length output_data)
      /\
      (needed <= len ->
       let copied :=
         firstn (Z.to_nat needed) data ++ skipn (Z.to_nat needed) output_data in
       bridge py input (Some output_data) frameCount timeInfo statusFlags
         userData w
       = Returned (code, Some copied, w)
       /\ List.length copied = List.length output_data).
Proof.
  intros py input output_data frameCount timeInfo statusFlags userData w
         returned data code needed len Hcall Hdata Hcode Hneeded Hlen Hbuf
         bridge Hbridge.
  assert (Hb : bridge py input (Some output_data) frameCount timeInfo
                 statusFlags userData w
               = PortAudioModule._stream_callback_cfunction py input
                   (Some output_data) frameCount timeInfo statusFlags userData w).
  { destruct Hbridge as [-> | ->]; [reflexivity | apply bridge_copies_agree]. }
  rewrite Hb. clear Hb Hbridge bridge.
  unfold PortAudioModule._stream_callback_cfunction.
  unfold callback_arguments in Hcall. rewrite Hcall.
  rewrite (parse_valid_result returned data code Hdata Hcode).
  rewrite (valid_continuation_accepted code Hcode).
  fold needed. fold len.
  rewrite (to_ulong_small needed) by exact Hneeded.
  rewrite (to_ulong_small len) by (unfold len; lia).
  assert (Hp : match returned with Py_None => None | _ => Some data end
               = Some data
               \/ (match returned with Py_None => None | _ => Some data end
                   = None /\ data = [])).
  { destruct returned; try discriminate Hdata;
      [right; injection Hdata as <-; split; reflexivity | left; reflexivity ..]. }
  destruct (copy_for_playback _ data output_data needed Hp (proj1 Hneeded))
    as [Hshort Hlong].
  fold len in Hshort, Hlong.
  split; intros Hcmp; cbv zeta.
  - specialize (Hshort Hcmp).
    destruct (Z.ltb_spec len needed) as [_ | Hge]; [| lia].
    destruct (Z.ltb_spec len needed) as [_ | Hge]; [| lia].
    rewrite Hshort. split; [reflexivity |].
    rewrite !length_app, repeat_length, length_skipn. unfold len in *. lia.
  - specialize (Hlong Hcmp).
    destruct (Z.ltb_spec len needed) as [Hlt | _]; [lia |].
    rewrite Z.ltb_irrefl. rewrite Hlong. split; [reflexivity |].
    rewrite length_app, length_firstn, length_skipn. unfold len in *. lia.
Qed.

(** The bridge run on a three-byte answer for an eight-byte period, and on a
    five-byte answer for a four-byte period. *)
Lemma callback_output_copy_and_padding_witness :
  PortAudioModule._stream_callback_cfunction
    (Sample.python (inr (PyTuple [PyBytes [x01; x02; x03]; PyLong paContinue])))
    None (Some [xff; xff; xff; xff; xff; xff; xff; xff; xff; xff]) 2
    Sample.time_info 0 Sample.context world0
  = Returned (paComplete,
              Some [x01; x02; x03; x00; x00; x00; x00; x00; xff; xff], world0)
  /\ StreamIO.stream_callback_cfunc
    (Sample.python (inr (PyTuple [PyBytes [x01; x02; x03; x04; x05]; PyLong paContinue])))
    None (Some [xff; xff; xff; xff; xff]) 1
    Sample.time_info 0 Sample.context world0
  = Returned (paContinue, Some [x01; x02; x03; x04; xff], world0).
Proof.
  split.
  - refine (proj1 (proj1 (callback_output_copy_and_padding
      (Sample.python (inr (PyTuple [PyBytes [x01; x02; x03]; PyLong paContinue])))
      None [xff; xff; xff; xff; xff; xff; xff; xff; xff; xff] 2
      Sample.time_info 0 Sample.context world0 (PyBytes [x01; x02; x03])
      [x01; x02; x03] paContinue
      eq_refl eq_refl (or_introl eq_refl) _ _ _ _ (or_introl eq_refl)) _)).
    + simpl; lia.
    + simpl; lia.
    + simpl; lia.
    + simpl; lia.
  - refine (proj1 (proj2 (callback_output_copy_and_padding
      (Sample.python (inr (PyTuple [PyBytes [x01; x02; x03; x04; x05]; PyLong paContinue])))
      None [xff; xff; xff; xff; xff] 1
      Sample.time_info 0 Sample.context world0
      (PyBytes [x01; x02; x03; x04; x05]) [x01; x02; x03; x04; x05] paContinue
      eq_refl eq_refl (or_introl eq_refl) _ _ _ _ (or_intror eq_refl)) _)).
    + simpl; lia.
    + simpl; lia.
    + simpl; lia.
    + simpl; lia.
Defined.

(** ** The callback bridge: a callback that raises (C5) *)




(** C5, evaluated.  A callback that raises [SystemExit] (it calls
    [sys.exit()]) under an interpreter not started with [-i], on an output
    stream: both copies of the bridge post the exception to thread 7, the
    owner recorded in the context, and then call [PyErr_Print], which ends
    the process.  Nothing is returned to PortAudio, where the specification
    promises [paAbort]; the lines after [end:], which release the
    interpreter lock, are not reached. *)
Theorem callback_system_exit_ends_process :
  PortAudioModule._stream_callback_cfunction
    (Sample.python (inl PyExc_SystemExit))
    None (Some [xff; xff]) 2 Sample.time_info 0 Sample.context world0
  = Py_Exit (mkWorld [] 0 [] (Some PyExc_SystemExit)
               [(7, PyExc_SystemExit)] [])
  /\
  StreamIO.stream_callback_cfunc
    (Sample.python (inl PyExc_SystemExit))
    None (Some [xff; xff]) 2 Sample.time_info 0 Sample.context world0
  = Py_Exit (mkWorld [] 0 [] (Some PyExc_SystemExit)
               [(7, PyExc_SystemExit)] []).
Proof. split; reflexivity. Qed.

(** ** The callback bridge: malformed results and input-only streams *)




(** X15.  Without an output buffer nothing is copied and the callback's code is
    returned as it is. *)
Lemma callback_input_only_returns_code :
  forall (py : Python) (input : option (list byte)) (frameCount : Z)
         (timeInfo : PaStreamCallbackTimeInfo) (statusFlags : Z)
         (userData : PyAudioCallbackContext) (w : World)
         (returned : PyObject) (data : list byte) (code : Z),
    PyObject_CallFunctionObjArgs py (callback userData)
      (callback_arguments (frame_size userData) input frameCount timeInfo
         statusFlags)
    = inr (PyTuple [returned; PyLong code]) ->
    returned_data returned = Some data ->
    valid_continuation code ->
    PortAudioModule._stream_callback_cfunction py input None frameCount
      timeInfo statusFlags userData w
    = Returned (code, None, w).
Proof.
  intros py input frameCount timeInfo statusFlags userData w returned data
         code Hcall Hdata Hcode.
  unfold callback_arguments in Hcall.
  unfold PortAudioModule._stream_callback_cfunction.
  rewrite Hcall, (parse_valid_result returned data code Hdata Hcode),
          (valid_continuation_accepted code Hcode).
  reflexivity.
Qed.

(** ** Blocking write: the frame count guard (C6) *)

(** C6.  A write with a negative frame count raises
    [ValueError("Invalid number of frames")] and changes neither the stream
    object nor the world: no call reaches PortAudio and nothing is torn
    down.  In [stream_io.c] the guard stands before the first use of a
    helper, so the statement holds for any [is_stream_open] and
    [cleanup_stream]. *)
Theorem write_negative_frame_count_rejected :
  forall (pa : PortAudio) (streamObject : _pyAudio_Stream) (data : list byte)
         (total_size total_frames should_throw_exception : Z) (w : World),
    total_frames < 0 ->
    PortAudioModule.pa_write_stream pa streamObject data total_size
      total_frames should_throw_exception w
    = (Raise (PyErr_SetString PyExc_ValueError "Invalid number of frames"),
       streamObject, w)
    /\
    forall is_stream_open cleanup_stream,
      StreamIO.pa_write_stream is_stream_open cleanup_stream pa streamObject
        data total_size total_frames should_throw_exception w
      = (Raise (PyErr_SetString PyExc_ValueError "Invalid number of frames"),
         streamObject, w).
Proof.
  intros pa streamObject data total_size total_frames flag w Hneg.
  unfold PortAudioModule.pa_write_stream, StreamIO.pa_write_stream.
  destruct (Z.ltb_spec total_frames 0) as [_ | Hge]; [| lia].
  split; [reflexivity | intros; reflexivity].
Qed.

Lemma write_negative_frame_count_rejected_witness :
  PortAudioModule.pa_write_stream (Sample.portaudio 0 PrimFloat.one 0 0)
    Sample.output_only_stream [x00; x00; x00; x00] 4 (-1) 0
    Sample.output_only_world
  = (Raise (PyErr_SetString PyExc_ValueError "Invalid number of frames"),
     Sample.output_only_stream, Sample.output_only_world).
Proof.
  apply (write_negative_frame_count_rejected
           (Sample.portaudio 0 PrimFloat.one 0 0) Sample.output_only_stream
           [x00; x00; x00; x00] 4 (-1) 0 Sample.output_only_world).
  lia.
Defined.

(** ** Teardown *)

(** [_cleanup_Stream_object] leaves the object closed, closes the native
    stream if there is one and gives back the reference on the callback. *)
Lemma cleanup_closes_stream (s : _pyAudio_Stream) (w : World) :
  fst (PortAudioModule._cleanup_Stream_object s w) = closed_stream
  /\ callback_refs (snd (PortAudioModule._cleanup_Stream_object s w))
     = callback_refs w
       - match callbackContext s with Some _ => 1 | None => 0 end
  /\ pa_calls (snd (PortAudioModule._cleanup_Stream_object s w))
     = pa_calls w
       ++ match stream s with Some h => [Call_Pa_CloseStream h] | None => [] end.
Proof.
  destruct s as [st ip op si cc io]. destruct w as [h r c e a p].
  unfold PortAudioModule._cleanup_Stream_object. simpl.
  destruct st, ip, op, cc; simpl;
    repeat split; try reflexivity; try lia; try (rewrite app_nil_r; reflexivity).
Qed.

(** It gives back every block that the object owns. *)
Lemma cleanup_releases_blocks (s : _pyAudio_Stream) (w : World)
      (rest : list Block) :
  heap w = owned_blocks s ++ rest ->
  heap (snd (PortAudioModule._cleanup_Stream_object s w)) = rest.
Proof.
  destruct s as [st ip op si cc io]. destruct w as [h r c e a p].
  unfold owned_blocks, PortAudioModule._cleanup_Stream_object. simpl.
  intros ->.
  destruct st, ip, op, cc; reflexivity.
Qed.

(** ** Stream time (C7) *)

(** C7.  On an open stream, when PortAudio reports a stream time equal to
    zero (the comparison [time == 0] of doubles), [pa_get_stream_time] tears
    the handle down and raises [IOError(paInternalError, "Internal Error")]:
    the object is left closed, the native stream is closed, the reference on
    the callback and every block the object owned are given back.  For any
    other reported time it returns that time, leaves the stream object as it
    was and does nothing but the query. *)
Theorem get_stream_time_zero_tears_down :
  forall (pa : PortAudio) (streamObject : _pyAudio_Stream) (w : World),
    PortAudioModule._is_open (Some streamObject) = true ->
    let time := Pa_GetStreamTime pa (stream streamObject) in
    let w1 := pa_call (Call_Pa_GetStreamTime (stream streamObject)) w in
    (PrimFloat.eqb time PrimFloat.zero = true ->
     exists w' : World,
       PortAudioModule.pa_get_stream_time pa streamObject w
       = (Raise (PyErr_SetObject PyExc_IOError paInternalError "Internal Error"),
          closed_stream, w')
       /\ pa_calls w'
          = pa_calls w
            ++ Call_Pa_GetStreamTime (stream streamObject)
               :: match stream streamObject with
                  | Some h => [Call_Pa_CloseStream h]
                  | None => []
                  end
       /\ callback_refs w'
          = callback_refs w
            - match callbackContext streamObject with Some _ => 1 | None => 0 end
       /\ forall rest,
            heap w = owned_blocks streamObject ++ rest -> heap w' = rest)
    /\
    (PrimFloat.eqb time PrimFloat.zero = false ->
     PortAudioModule.pa_get_stream_time pa streamObject w
     = (Return (PyFloat time), streamObject, w1)).
Proof.
  intros pa streamObject w Hopen time w1.
  unfold PortAudioModule.pa_get_stream_time. rewrite Hopen. simpl negb. cbv iota.
  fold time. fold w1.
  split; intros Hz; rewrite Hz; [| reflexivity].
  destruct (cleanup_closes_stream streamObject w1) as (Hs & Hr & Hc).
  exists (snd (PortAudioModule._cleanup_Stream_object streamObject w1)).
  destruct (PortAudioModule._cleanup_Stream_object streamObject w1) as [s' w']
    eqn:E.
  simpl in *. subst s'.
  split; [reflexivity |]. split; [| split].
  - rewrite Hc. unfold w1. simpl. rewrite <- app_assoc. reflexivity.
  - exact Hr.
  - intros rest Hheap.
    pose proof (cleanup_releases_blocks streamObject w1 rest Hheap) as Hb.
    rewrite E in Hb. exact Hb.
Qed.

Lemma get_stream_time_zero_tears_down_witness :
  (exists w' : World,
     PortAudioModule.pa_get_stream_time
       (Sample.portaudio 0 PrimFloat.zero 0 0) Sample.output_only_stream
       Sample.output_only_world
     = (Raise (PyErr_SetObject PyExc_IOError paInternalError "Internal Error"),
        closed_stream, w')
     /\ pa_calls w' = [Call_Pa_GetStreamTime (Some 1); Call_Pa_CloseStream 1]
     /\ callback_refs w' = 0
     /\ forall rest, [OutputParameters_block] = [OutputParameters_block] ++ rest ->
                     heap w' = rest)
  /\
  PortAudioModule.pa_get_stream_time
    (Sample.portaudio 0 PrimFloat.one 0 0) Sample.output_only_stream
    Sample.output_only_world
  = (Return (PyFloat PrimFloat.one), Sample.output_only_stream,
     mkWorld [OutputParameters_block] 0 [Call_Pa_GetStreamTime (Some 1)]
       None [] []).
Proof.
  split.
  - apply (proj1 (get_stream_time_zero_tears_down
                    (Sample.portaudio 0 PrimFloat.zero 0 0)
                    Sample.output_only_stream Sample.output_only_world
                    eq_refl)).
    reflexivity.
  - apply (proj2 (get_stream_time_zero_tears_down
                    (Sample.portaudio 0 PrimFloat.one 0 0)
                    Sample.output_only_stream Sample.output_only_world
                    eq_refl)).
    reflexivity.
Defined.

(** ** Availability queries (C8) *)

(** C8.  On an open stream, [pa_get_stream_write_available] and
    [pa_get_stream_read_available] return the number PortAudio answered as a
    Python integer, whatever its sign, and leave the stream object as it
    was; the only effect is the query itself.  The copies in [stream_io.c]
    never use [cleanup_stream], and do the same once [is_stream_open]
    answers true. *)
Theorem availability_returned_verbatim :
  forall (pa : PortAudio) (streamObject : _pyAudio_Stream) (w : World),
    PortAudioModule._is_open (Some streamObject) = true ->
    PortAudioModule.pa_get_stream_write_available pa streamObject w
    = (Return (PyLong (Pa_GetStreamWriteAvailable pa (stream streamObject))),
       streamObject,
       pa_call (Call_Pa_GetStreamWriteAvailable (stream streamObject)) w)
    /\
    PortAudioModule.pa_get_stream_read_available pa streamObject w
    = (Return (PyLong (Pa_GetStreamReadAvailable pa (stream streamObject))),
       streamObject,
       pa_call (Call_Pa_GetStreamReadAvailable (stream streamObject)) w)
    /\
    forall is_stream_open : StreamIO.PyAudioStream -> bool,
      is_stream_open streamObject = true ->
      StreamIO.pa_get_stream_write_available is_stream_open pa streamObject w
      = (Return (PyLong (Pa_GetStreamWriteAvailable pa (stream streamObject))),
         streamObject,
         pa_call (Call_Pa_GetStreamWriteAvailable (stream streamObject)) w)
      /\
      StreamIO.pa_get_stream_read_available is_stream_open pa streamObject w
      = (Return (PyLong (Pa_GetStreamReadAvailable pa (stream streamObject))),
         streamObject,
         pa_call (Call_Pa_GetStreamReadAvailable (stream streamObject)) w).
Proof.
  intros pa streamObject w Hopen.
  unfold PortAudioModule.pa_get_stream_write_available,
         PortAudioModule.pa_get_stream_read_available,
         StreamIO.pa_get_stream_write_available,
         StreamIO.pa_get_stream_read_available.
  rewrite Hopen.
  repeat split; try reflexivity; rewrite H; reflexivity.
Qed.

(** The open output-only stream of [Sample] when PortAudio answers
    [paBadStreamPtr] to the availability queries. *)
Lemma availability_returned_verbatim_witness :
  PortAudioModule.pa_get_stream_write_available
    (Sample.portaudio 0 PrimFloat.one 0 paBadStreamPtr)
    Sample.output_only_stream Sample.output_only_world
  = (Return (PyLong (-9988)), Sample.output_only_stream,
     mkWorld [OutputParameters_block] 0
       [Call_Pa_GetStreamWriteAvailable (Some 1)] None [] []).
Proof.
  exact (proj1 (availability_returned_verbatim
                  (Sample.portaudio 0 PrimFloat.one 0 paBadStreamPtr)
                  Sample.output_only_stream Sample.output_only_world
                  eq_refl)).
Defined.

(** ** Blocking write: the length of the data (C9) *)

(** The outcome of a write on an open stream, in closed form. *)
Lemma pa_write_stream_run :
  forall (pa : PortAudio) (streamObject : _pyAudio_Stream) (data : list byte)
         (total_size total_frames should_throw_exception : Z) (w : World),
    0 <= total_frames ->
    PortAudioModule._is_open (Some streamObject) = true ->
    let err := Pa_WriteStream pa (stream streamObject) data total_frames in
    let w1 :=
      pa_call (Call_Pa_WriteStream (stream streamObject) data total_frames) w in
    PortAudioModule.pa_write_stream pa streamObject data total_size
      total_frames should_throw_exception w
    = (if write_status_tolerated err should_throw_exception
       then (Return Py_None, streamObject, w1)
       else (Raise (PyErr_SetObject PyExc_IOError err (Pa_GetErrorText pa err)),
             closed_stream,
             snd (PortAudioModule._cleanup_Stream_object streamObject w1))).
Proof.
  intros pa streamObject data total_size total_frames flag w Hframes Hopen
         err w1.
  unfold PortAudioModule.pa_write_stream, write_status_tolerated.
  destruct (Z.ltb_spec total_frames 0) as [Hneg | _]; [lia |].
  rewrite Hopen. simpl negb. cbv iota. fold err. fold w1.
  destruct (err =? paNoError); simpl; [reflexivity |].
  destruct (err =? paOutputUnderflowed); simpl;
    [destruct (C.truthy flag); reflexivity | reflexivity].
Qed.

(** The same for the copy in [stream_io.c], with its helpers. *)
Lemma stream_io_pa_write_stream_run :
  forall (is_stream_open : StreamIO.PyAudioStream -> bool)
         (cleanup_stream : StreamIO.PyAudioStream -> World ->
                           StreamIO.PyAudioStream * World)
         (pa : PortAudio) (streamObject : _pyAudio_Stream) (data : list byte)
         (total_size total_frames should_throw_exception : Z) (w : World),
    0 <= total_frames ->
    is_stream_open streamObject = true ->
    let err := Pa_WriteStream pa (stream streamObject) data total_frames in
    let w1 :=
      pa_call (Call_Pa_WriteStream (stream streamObject) data total_frames) w in
    StreamIO.pa_write_stream is_stream_open cleanup_stream pa streamObject
      data total_size total_frames should_throw_exception w
    = (if write_status_tolerated err should_throw_exception
       then (Return Py_None, streamObject, w1)
       else (Raise (PyErr_SetObject PyExc_IOError err (Pa_GetErrorText pa err)),
             fst (cleanup_stream streamObject w1),
             snd (cleanup_stream streamObject w1))).
Proof.
  intros is_stream_open cleanup_stream pa streamObject data total_size
         total_frames flag w Hframes Hopen err w1.
  unfold StreamIO.pa_write_stream, write_status_tolerated.
  destruct (Z.ltb_spec total_frames 0) as [Hneg | _]; [lia |].
  rewrite Hopen. simpl negb. cbv iota. fold err. fold w1.
  destruct (err =? paNoError); simpl; [reflexivity |].
  destruct (err =? paOutputUnderflowed); simpl;
    [destruct (C.truthy flag); simpl |];
    try reflexivity; destruct (cleanup_stream streamObject w1); reflexivity.
Qed.

(** C9.  On an open stream and for a non-negative frame count, the outcome
    of [pa_write_stream] is decided by the status of [Pa_WriteStream] and by
    [should_throw_exception] alone: PortAudio is called once, with the data
    pointer and [total_frames]; neither [total_size] nor the length of
    [data] is looked at.  So a status [paNoError] gives [None] whatever the
    length of the data, and two writes of the same frame count whose data
    PortAudio answers with the same status have the same outcome and leave
    the same stream object, whatever the two lengths.  The copy in
    [stream_io.c] behaves the same with its helper [cleanup_stream]. *)
Theorem write_ignores_data_length :
  forall (pa : PortAudio) (streamObject : _pyAudio_Stream) (data : list byte)
         (total_size total_frames should_throw_exception : Z) (w : World),
    0 <= total_frames ->
    PortAudioModule._is_open (Some streamObject) = true ->
    let err := Pa_WriteStream pa (stream streamObject) data total_frames in
    let w1 :=
      pa_call (Call_Pa_WriteStream (stream streamObject) data total_frames) w in
    PortAudioModule.pa_write_stream pa streamObject data total_size
      total_frames should_throw_exception w
    = (if write_status_tolerated err should_throw_exception
       then (Return Py_None, streamObject, w1)
       else (Raise (PyErr_SetObject PyExc_IOError err (Pa_GetErrorText pa err)),
             closed_stream,
             snd (PortAudioModule._cleanup_Stream_object streamObject w1)))
    /\
    pa_calls w1
    = pa_calls w ++ [Call_Pa_WriteStream (stream streamObject) data total_frames]
    /\
    (forall (data' : list byte) (total_size' : Z),
       Pa_WriteStream pa (stream streamObject) data' total_frames = err ->
       fst (PortAudioModule.pa_write_stream pa streamObject data' total_size'
              total_frames should_throw_exception w)
       = fst (PortAudioModule.pa_write_stream pa streamObject data total_size
                total_frames should_throw_exception w))
    /\
    (forall is_stream_open cleanup_stream,
       is_stream_open streamObject = true ->
       StreamIO.pa_write_stream is_stream_open cleanup_stream pa streamObject
         data total_size total_frames should_throw_exception w
       = (if write_status_tolerated err should_throw_exception
          then (Return Py_None, streamObject, w1)
          else (Raise (PyErr_SetObject PyExc_IOError err (Pa_GetErrorText pa err)),
                fst (cleanup_stream streamObject w1),
                snd (cleanup_stream streamObject w1)))
       /\
       forall (data' : list byte) (total_size' : Z),
         Pa_WriteStream pa (stream streamObject) data' total_frames = err ->
         fst (fst (StreamIO.pa_write_stream is_stream_open cleanup_stream pa
                     streamObject data' total_size' total_frames
                     should_throw_exception w))
         = fst (fst (StreamIO.pa_write_stream is_stream_open cleanup_stream pa
                       streamObject data total_size total_frames
                       should_throw_exception w))).
Proof.
  intros pa streamObject data total_size total_frames flag w Hframes Hopen
         err w1.
  split; [apply pa_write_stream_run; assumption |].
  split; [reflexivity |].
  split.
  - intros data' total_size' Herr.
    rewrite !pa_write_stream_run by assumption. cbv zeta.
    rewrite Herr. fold err.
    destruct (write_status_tolerated err flag); reflexivity.
  - intros is_stream_open cleanup_stream Hopen'.
    split; [apply stream_io_pa_write_stream_run; assumption |].
    intros data' total_size' Herr.
    rewrite !stream_io_pa_write_stream_run by assumption. cbv zeta.
    rewrite Herr. fold err.
    destruct (write_status_tolerated err flag); reflexivity.
Qed.

(** A write of three frames of four bytes with a one-byte buffer: the write
    succeeds. *)
Lemma write_ignores_data_length_witness :
  PortAudioModule.pa_write_stream (Sample.portaudio 0 PrimFloat.one 0 0)
    Sample.output_only_stream [x2a] 1 3 0 Sample.output_only_world
  = (Return Py_None, Sample.output_only_stream,
     mkWorld [OutputParameters_block] 0
       [Call_Pa_WriteStream (Some 1) [x2a] 3] None [] []).
Proof.
  apply (proj1 (write_ignores_data_length
                  (Sample.portaudio 0 PrimFloat.one 0 0)
                  Sample.output_only_stream [x2a] 1 3 0
                  Sample.output_only_world ltac:(lia) eq_refl)).
Defined.

(** ** The duplicated functions (C10) *)

(** C10.  [stream_callback_cfunc] and [_stream_callback_cfunction] end in
    the same way on every input (the same continuation code, output buffer
    and world, or the same end of the process), and
    the blocking write and read and the two availability queries of
    [stream_io.c] return what their namesakes of [_portaudiomodule.c]
    return, provided the helpers [is_stream_open] and [cleanup_stream] of
    [stream.h] behave as [_is_open] and [_cleanup_Stream_object]. *)
Theorem duplicated_functions_agree :
  forall (is_stream_open : StreamIO.PyAudioStream -> bool)
         (cleanup_stream : StreamIO.PyAudioStream -> World ->
                           StreamIO.PyAudioStream * World),
    (forall s : _pyAudio_Stream,
       is_stream_open s = PortAudioModule._is_open (Some s)) ->
    (forall (s : _pyAudio_Stream) (w : World),
       cleanup_stream s w = PortAudioModule._cleanup_Stream_object s w) ->
    (forall py input output frameCount timeInfo statusFlags userData w,
       StreamIO.stream_callback_cfunc py input output frameCount timeInfo
         statusFlags userData w
       = PortAudioModule._stream_callback_cfunction py input output frameCount
           timeInfo statusFlags userData w)
    /\
    (forall pa s data total_size total_frames should_throw_exception w,
       StreamIO.pa_write_stream is_stream_open cleanup_stream pa s data
         total_size total_frames should_throw_exception w
       = PortAudioModule.pa_write_stream pa s data total_size total_frames
           should_throw_exception w)
    /\
    (forall pa s total_frames should_raise_exception w,
       StreamIO.pa_read_stream is_stream_open cleanup_stream pa s total_frames
         should_raise_exception w
       = PortAudioModule.pa_read_stream pa s total_frames
           should_raise_exception w)
    /\
    (forall pa s w,
       StreamIO.pa_get_stream_write_available is_stream_open pa s w
       = PortAudioModule.pa_get_stream_write_available pa s w)
    /\
    (forall pa s w,
       StreamIO.pa_get_stream_read_available is_stream_open pa s w
       = PortAudioModule.pa_get_stream_read_available pa s w).
Proof.
  intros is_stream_open cleanup_stream Hopen Hclean.
  unfold StreamIO.PyAudioStream in *.
  split; [intros; apply bridge_copies_agree |].
  split; [| split; [| split]].
  - intros. unfold StreamIO.pa_write_stream, PortAudioModule.pa_write_stream.
    rewrite Hopen, Hclean. reflexivity.
  - intros. unfold StreamIO.pa_read_stream, PortAudioModule.pa_read_stream.
    rewrite Hopen.
    destruct (total_frames <? 0); [reflexivity |].
    destruct (PortAudioModule._is_open (Some s)); [| reflexivity].
    simpl negb. cbv iota.
    destruct (inputParameters s) as [ip |]; [| reflexivity].
    destruct (PortAudioModule.new_sample_block _) as [f | [blk |]];
      try reflexivity.
    destruct (Pa_ReadStream pa (stream s) blk total_frames) as [err rv].
    rewrite Hclean. reflexivity.
  - intros. unfold StreamIO.pa_get_stream_write_available,
                   PortAudioModule.pa_get_stream_write_available.
    rewrite Hopen. reflexivity.
  - intros. unfold StreamIO.pa_get_stream_read_available,
                   PortAudioModule.pa_get_stream_read_available.
    rewrite Hopen. reflexivity.
Qed.

(** The helpers instantiated by those of [_portaudiomodule.c], on a write
    that PortAudio refuses. *)
Lemma duplicated_functions_agree_witness :
  StreamIO.pa_write_stream
    (fun s => PortAudioModule._is_open (Some s))
    PortAudioModule._cleanup_Stream_object
    (Sample.portaudio 0 PrimFloat.one paBadStreamPtr 0)
    Sample.output_only_stream [x00; x00; x00; x00] 4 1 0
    Sample.output_only_world
  = PortAudioModule.pa_write_stream
      (Sample.portaudio 0 PrimFloat.one paBadStreamPtr 0)
      Sample.output_only_stream [x00; x00; x00; x00] 4 1 0
      Sample.output_only_world.
Proof.
  apply (proj1 (proj2 (duplicated_functions_agree
                         (fun s => PortAudioModule._is_open (Some s))
                         PortAudioModule._cleanup_Stream_object
                         (fun s => eq_refl) (fun s w => eq_refl)))).
Defined.

(** ** The steps of [PortAudioModule.pa_open] *)

Lemma pa_open_steps :
  forall (pa : PortAudio) (py : Python) (rate channels : Z)
         (format : PaSampleFormat) (input output : Z)
         (input_device_index_arg output_device_index_arg : option PyObject)
         (frames_per_buffer : Z) (stream_callback : option PyObject)
         (w : World),
    PortAudioModule.pa_open pa py rate channels format input output input_device_index_arg
      output_device_index_arg frames_per_buffer stream_callback w
    = (PortAudioModule.open_check_callback stream_callback ;;
       input_device_index <-
         PortAudioModule.device_index py input_device_index_arg
           "input_device_index must be integer (or None)" ;;
       output_device_index <-
         PortAudioModule.device_index py output_device_index_arg
           "output_device_index must be integer (or None)" ;;
       PortAudioModule.open_check_direction input output channels ;;
       outputParameters <-
         PortAudioModule.open_output_parameters pa channels format output output_device_index ;;
       inputParameters <-
         PortAudioModule.open_input_parameters pa channels format input input_device_index ;;
       context <- PortAudioModule.open_callback_context pa py channels format stream_callback ;;
       PortAudioModule.open_native_stream pa rate frames_per_buffer stream_callback
         inputParameters outputParameters context)%c w.
Proof.
  intros. unfold PortAudioModule.pa_open, PortAudioModule.open_check_direction, bind.
  destruct (PortAudioModule.open_check_callback stream_callback w) as [[| |] w1] eqn:E1;
    unfold PortAudioModule.open_check_callback in E1; rewrite E1; try reflexivity.
  destruct (PortAudioModule.device_index py input_device_index_arg _ w1) as [[zi | |] w2];
    try reflexivity.
  destruct (PortAudioModule.device_index py output_device_index_arg _ w2) as [[zo | |] w3];
    try reflexivity.
  destruct ((input =? 0) && (output =? 0)); [reflexivity |].
  destruct (channels <? 1); reflexivity.
Qed.

Lemma bind_Return {A B} (m : M A) (k : A -> M B) (w w' : World) (v : B) :
  bind m k w = (Return v, w') ->
  exists a w1, m w = (Return a, w1) /\ k a w1 = (Return v, w').
Proof.
  unfold bind. destruct (m w) as [[a | e | f] w1]; intros H;
    try discriminate H.
  exists a, w1. split; [reflexivity | exact H].
Qed.

Lemma bind_Raise {A B} (m : M A) (k : A -> M B) (w w' : World) (e : PyErr) :
  bind m k w = (Raise e, w') ->
  m w = (Raise e, w')
  \/ exists a w1, m w = (Return a, w1) /\ k a w1 = (Raise e, w').
Proof.
  unfold bind. destruct (m w) as [[a | e1 | f] w1]; intros H;
    try discriminate H.
  - right. exists a, w1. split; [reflexivity | exact H].
  - left. injection H as -> ->. reflexivity.
Qed.

Lemma device_index_cases (py : Python) (arg : option PyObject) (msg : string)
      (w : World) :
  (exists z, PortAudioModule.device_index py arg msg w = (Return z, w))
  \/ PortAudioModule.device_index py arg msg w
     = (Raise (PyErr_SetString PyExc_ValueError msg), w)
  \/ PortAudioModule.device_index py arg msg w = (Fault NullDereference, w).
Proof.
  unfold PortAudioModule.device_index.
  destruct arg as [o |]; [| left; eexists; reflexivity].
  destruct o; simpl;
    try solve [ left; eexists; reflexivity | right; left; reflexivity ];
    match goal with
    | |- context [PyNumber_Long py ?o] => destruct (PyNumber_Long py o)
    end;
    solve [ left; eexists; reflexivity | right; right; reflexivity ].
Qed.

Lemma open_check_callback_cases (stream_callback : option PyObject) (w : World) :
  PortAudioModule.open_check_callback stream_callback w = (Return tt, w)
  \/ PortAudioModule.open_check_callback stream_callback w
     = (Raise (PyErr_SetString PyExc_TypeError "stream_callback must be callable"),
        w).
Proof.
  unfold PortAudioModule.open_check_callback.
  destruct stream_callback as [cb |]; [| left; reflexivity].
  destruct (PyCallable_Check cb =? 0); [right | left]; reflexivity.
Qed.

Lemma open_check_direction_cases (input output channels : Z) (w : World) :
  PortAudioModule.open_check_direction input output channels w = (Return tt, w)
  \/ exists msg,
       PortAudioModule.open_check_direction input output channels w
       = (Raise (PyErr_SetString PyExc_ValueError msg), w).
Proof.
  unfold PortAudioModule.open_check_direction.
  destruct ((input =? 0) && (output =? 0)); [right; eexists; reflexivity |].
  destruct (channels <? 1); [right; eexists; reflexivity | left; reflexivity].
Qed.

(** The output step: nothing for a stream without output; [InvalidDevice]
    with the block given back when the device is out of range; otherwise the
    block is kept and the latency read through [Pa_GetDeviceInfo]. *)
Lemma open_output_parameters_cases (pa : PortAudio) (channels : Z)
      (format : PaSampleFormat) (output output_device_index : Z) (w : World) :
  let d := PortAudioModule.resolve_device output_device_index (Pa_GetDefaultOutputDevice pa) in
  let r := PortAudioModule.open_output_parameters pa channels format output output_device_index w in
  (C.truthy output = false /\ r = (Return None, w))
  \/ (C.truthy output = true /\ ~ device_in_range pa d
      /\ r = (Raise (PyErr_SetObject PyExc_IOError paInvalidDevice
                       "Invalid output device (no default output device)"),
              w))
  \/ (C.truthy output = true /\ device_in_range pa d
      /\ Pa_GetDeviceInfo pa d = None
      /\ r = (Fault NullDereference, malloc OutputParameters_block w))
  \/ (C.truthy output = true /\ device_in_range pa d
      /\ exists info,
           Pa_GetDeviceInfo pa d = Some info
           /\ r = (Return (Some (mkPaStreamParameters d channels format
                                   (defaultLowOutputLatency info) None)),
                   malloc OutputParameters_block w)).
Proof.
  intros d r. subst r. unfold PortAudioModule.open_output_parameters, device_in_range.
  fold d.
  destruct (C.truthy output); [| left; split; reflexivity].
  right. unfold bind, effect, raise, ret, deref, fault.
  destruct (Z.ltb_spec d 0) as [Hneg | Hpos]; simpl.
  { left. rewrite free_malloc. split; [reflexivity | split; [lia | reflexivity]]. }
  destruct (Z.geb_spec d (Pa_GetDeviceCount pa)) as [Hbig | Hsmall]; simpl.
  { left. rewrite free_malloc. split; [reflexivity | split; [lia | reflexivity]]. }
  right.
  destruct (Pa_GetDeviceInfo pa d) as [info |].
  - right. split; [reflexivity | split; [lia |]].
    exists info. split; reflexivity.
  - left. split; [reflexivity | split; [lia | split; reflexivity]].
Qed.

(** The input step: the same, except that only a negative device is
    refused. *)
Lemma open_input_parameters_cases (pa : PortAudio) (channels : Z)
      (format : PaSampleFormat) (input input_device_index : Z) (w : World) :
  let d := PortAudioModule.resolve_device input_device_index (Pa_GetDefaultInputDevice pa) in
  let r := PortAudioModule.open_input_parameters pa channels format input input_device_index w in
  (C.truthy input = false /\ r = (Return None, w))
  \/ (C.truthy input = true /\ d < 0
      /\ r = (Raise (PyErr_SetObject PyExc_IOError paInvalidDevice
                       "Invalid input device (no default output device)"),
              w))
  \/ (C.truthy input = true /\ 0 <= d
      /\ Pa_GetDeviceInfo pa d = None
      /\ r = (Fault NullDereference, malloc InputParameters_block w))
  \/ (C.truthy input = true /\ 0 <= d
      /\ exists info,
           Pa_GetDeviceInfo pa d = Some info
           /\ r = (Return (Some (mkPaStreamParameters d channels format
                                   (defaultLowInputLatency info) None)),
                   malloc InputParameters_block w)).
Proof.
  intros d r. subst r. unfold PortAudioModule.open_input_parameters. fold d.
  destruct (C.truthy input); [| left; split; reflexivity].
  right. unfold bind, effect, raise, ret, deref, fault.
  destruct (Z.ltb_spec d 0) as [Hneg | Hpos]; simpl.
  { left. rewrite free_malloc. split; [reflexivity | split; [lia | reflexivity]]. }
  right.
  destruct (Pa_GetDeviceInfo pa d) as [info |].
  - right. split; [reflexivity | split; [lia |]].
    exists info. split; reflexivity.
  - left. split; [reflexivity | split; [lia | split; reflexivity]].
Qed.

Lemma open_callback_context_run (pa : PortAudio) (py : Python) (channels : Z)
      (format : PaSampleFormat) (stream_callback : option PyObject) (w : World) :
  PortAudioModule.open_callback_context pa py channels format stream_callback w
  = match stream_callback with
    | Some cb =>
        (Return (Some (mkPyAudioCallbackContext cb (current_thread_id py)
                         (C.to_uint (Pa_GetSampleSize pa format * channels)))),
         malloc CallbackContext_block (Py_INCREF w))
    | None => (Return None, w)
    end.
Proof. destruct stream_callback; reflexivity. Qed.

(** The last step: either [Pa_OpenStream] fails, or [Pa_GetStreamInfo]
    does, or the stream object is built; nothing is released and the stream
    is never closed. *)
Lemma open_native_stream_cases (pa : PortAudio) (rate frames_per_buffer : Z)
      (stream_callback : option PyObject)
      (inputParameters outputParameters : option PaStreamParameters)
      (context : option PyAudioCallbackContext) (w : World) :
  let with_callback :=
    match stream_callback with Some _ => true | None => false end in
  let framesPerBuffer := C.to_ulong frames_per_buffer in
  let call :=
    Call_Pa_OpenStream inputParameters outputParameters rate framesPerBuffer
      paClipOff with_callback in
  let err := fst (Pa_OpenStream pa inputParameters outputParameters rate
                    framesPerBuffer paClipOff with_callback) in
  let stream := snd (Pa_OpenStream pa inputParameters outputParameters rate
                       framesPerBuffer paClipOff with_callback) in
  let r := PortAudioModule.open_native_stream pa rate frames_per_buffer stream_callback
             inputParameters outputParameters context w in
  (err <> paNoError
   /\ r = (Raise (PyErr_SetObject PyExc_IOError err (Pa_GetErrorText pa err)),
           pa_call call w))
  \/ (err = paNoError /\ Pa_GetStreamInfo pa stream = None
      /\ r = (Raise (PyErr_SetObject PyExc_IOError paInternalError
                       "Could not get stream information"),
              pa_call (Call_Pa_GetStreamInfo stream) (pa_call call w)))
  \/ (err = paNoError
      /\ exists streamInfo,
           Pa_GetStreamInfo pa stream = Some streamInfo
           /\ r = (Return (mk_pyAudio_Stream stream inputParameters
                             outputParameters (Some streamInfo) context 1),
                   pa_call (Call_Pa_GetStreamInfo stream) (pa_call call w))).
Proof.
  intros with_callback framesPerBuffer call err stream r. subst r.
  unfold PortAudioModule.open_native_stream. fold framesPerBuffer.
  fold with_callback.
  subst err stream.
  destruct (Pa_OpenStream pa inputParameters outputParameters rate
              framesPerBuffer paClipOff with_callback) as [err stream].
  simpl fst. simpl snd. fold call.
  unfold bind, effect, raise, ret.
  destruct (Z.eqb_spec err paNoError) as [-> | Hne]; simpl.
  - right. destruct (Pa_GetStreamInfo pa stream) as [info |].
    + right. split; [reflexivity |]. exists info. split; reflexivity.
    + left. repeat split; reflexivity.
  - left. split; [exact Hne | reflexivity].
Qed.

(** ** What [PortAudioModule.pa_open] holds when it returns *)

(** A stream object that [PortAudioModule.pa_open] returns is open, carries the callback
    context built from the calling thread and the frame size, has parameter
    blocks for exactly the requested directions, an output device that
    PortAudio knows and a non-negative input device; the world holds the
    blocks of the object and one reference on the callback. *)
Lemma open_success_shape :
  forall (pa : PortAudio) (py : Python) (rate channels : Z)
         (format : PaSampleFormat) (input output : Z)
         (input_device_index_arg output_device_index_arg : option PyObject)
         (frames_per_buffer : Z) (stream_callback : option PyObject)
         (w w' : World) (s : _pyAudio_Stream),
    PortAudioModule.pa_open pa py rate channels format input output input_device_index_arg
      output_device_index_arg frames_per_buffer stream_callback w
    = (Return s, w') ->
    is_open s = 1
    /\ callbackContext s
       = match stream_callback with
         | Some cb =>
             Some (mkPyAudioCallbackContext cb (current_thread_id py)
                     (C.to_uint (Pa_GetSampleSize pa format * channels)))
         | None => None
         end
    /\ (forall p, outputParameters s = Some p -> device_in_range pa (device p))
    /\ (forall p, inputParameters s = Some p -> 0 <= device p)
    /\ owned_blocks s = blocks_allocated input output stream_callback
    /\ heap w' = owned_blocks s ++ heap w
    /\ callback_refs w'
       = callback_refs w
         + match stream_callback with Some _ => 1 | None => 0 end.
Proof.
  intros pa py rate channels format input output ia oa fpb cb w w' s H.
  rewrite pa_open_steps in H.
  apply bind_Return in H. destruct H as (u0 & w0 & H0 & H).
  destruct (open_check_callback_cases cb w) as [E | E];
    rewrite E in H0; [| discriminate H0].
  injection H0 as _ <-.
  apply bind_Return in H. destruct H as (zi & w1 & H1 & H).
  destruct (device_index_cases py ia
              "input_device_index must be integer (or None)"%string w)
    as [[z E1] | [E1 | E1]]; rewrite E1 in H1; try discriminate H1.
  injection H1 as <- <-.
  apply bind_Return in H. destruct H as (zo & w2 & H2 & H).
  destruct (device_index_cases py oa
              "output_device_index must be integer (or None)"%string w)
    as [[z' E2] | [E2 | E2]]; rewrite E2 in H2; try discriminate H2.
  injection H2 as <- <-.
  apply bind_Return in H. destruct H as (u3 & w3 & H3 & H).
  destruct (open_check_direction_cases input output channels w)
    as [E3 | [msg E3]]; rewrite E3 in H3; [| discriminate H3].
  injection H3 as _ <-.
  apply bind_Return in H. destruct H as (outP & w4 & H4 & H).
  apply bind_Return in H. destruct H as (inP & w5 & H5 & H).
  apply bind_Return in H. destruct H as (ctx & w6 & H6 & H).
  rewrite open_callback_context_run in H6.
  pose proof (open_native_stream_cases pa rate fpb cb inP outP ctx w6) as N.
  cbv zeta in N. rewrite H in N.
  destruct N as [[_ N] | [(_ & _ & N) | (_ & info & _ & N)]];
    try discriminate N.
  injection N as -> ->.
  pose proof (open_output_parameters_cases pa channels format output z' w) as O.
  cbv zeta in O. rewrite H4 in O.
  pose proof (open_input_parameters_cases pa channels format input z w4) as I.
  cbv zeta in I. rewrite H5 in I.
  unfold owned_blocks, blocks_allocated. simpl.
  destruct O as [(To & O) | [(To & _ & O) | [(To & _ & _ & O)
                 | (To & Ro & io & _ & O)]]];
    try discriminate O; injection O as -> ->;
  (destruct I as [(Ti & I) | [(Ti & _ & I) | [(Ti & _ & _ & I)
                 | (Ti & Ri & ii & _ & I)]]];
    try discriminate I; injection I as -> ->);
  rewrite To, Ti;
  (destruct cb as [c |]; injection H6 as <- <-; simpl;
   repeat match goal with |- _ /\ _ => split end;
   try reflexivity; try lia;
   intros p Hp; try discriminate Hp; injection Hp as <-; simpl;
   first [exact Ro | exact Ri]).
Qed.

(** Whenever [PortAudioModule.pa_open] raises after having called into the stream API of
    PortAudio (that is, on a native-level failure), every block it allocated
    and its reference on the callback are still held, and the calls it made
    contain no [Pa_CloseStream]. *)
Lemma open_native_failure_retains_allocations :
  forall (pa : PortAudio) (py : Python) (rate channels : Z)
         (format : PaSampleFormat) (input output : Z)
         (input_device_index_arg output_device_index_arg : option PyObject)
         (frames_per_buffer : Z) (stream_callback : option PyObject)
         (w w' : World) (e : PyErr),
    PortAudioModule.pa_open pa py rate channels format input output input_device_index_arg
      output_device_index_arg frames_per_buffer stream_callback w
    = (Raise e, w') ->
    pa_calls w' <> pa_calls w ->
    heap w' = blocks_allocated input output stream_callback ++ heap w
    /\ callback_refs w'
       = callback_refs w
         + match stream_callback with Some _ => 1 | None => 0 end
    /\ exists calls,
         pa_calls w' = pa_calls w ++ calls
         /\ forall h, ~ In (Call_Pa_CloseStream h) calls.
Proof.
  intros pa py rate channels format input output ia oa fpb cb w w' e H Hcalls.
  rewrite pa_open_steps in H.
  apply bind_Raise in H. destruct H as [H | (u0 & w0 & H0 & H)].
  { destruct (open_check_callback_cases cb w) as [E | E]; rewrite E in H;
      [discriminate H | injection H as _ <-; contradiction]. }
  destruct (open_check_callback_cases cb w) as [E | E];
    rewrite E in H0; [| discriminate H0].
  injection H0 as _ <-.
  apply bind_Raise in H. destruct H as [H | (zi & w1 & H1 & H)].
  { destruct (device_index_cases py ia
                "input_device_index must be integer (or None)"%string w)
      as [[z E1] | [E1 | E1]]; rewrite E1 in H;
      [discriminate H | injection H as _ <-; contradiction | discriminate H]. }
  destruct (device_index_cases py ia
              "input_device_index must be integer (or None)"%string w)
    as [[z E1] | [E1 | E1]]; rewrite E1 in H1; try discriminate H1.
  injection H1 as <- <-.
  apply bind_Raise in H. destruct H as [H | (zo & w2 & H2 & H)].
  { destruct (device_index_cases py oa
                "output_device_index must be integer (or None)"%string w)
      as [[z' E2] | [E2 | E2]]; rewrite E2 in H;
      [discriminate H | injection H as _ <-; contradiction | discriminate H]. }
  destruct (device_index_cases py oa
              "output_device_index must be integer (or None)"%string w)
    as [[z' E2] | [E2 | E2]]; rewrite E2 in H2; try discriminate H2.
  injection H2 as <- <-.
  apply bind_Raise in H. destruct H as [H | (u3 & w3 & H3 & H)].
  { destruct (open_check_direction_cases input output channels w)
      as [E3 | [msg E3]]; rewrite E3 in H;
      [discriminate H | injection H as _ <-; contradiction]. }
  destruct (open_check_direction_cases input output channels w)
    as [E3 | [msg E3]]; rewrite E3 in H3; [| discriminate H3].
  injection H3 as _ <-.
  pose proof (open_output_parameters_cases pa channels format output z' w) as O.
  cbv zeta in O.
  apply bind_Raise in H. destruct H as [H | (outP & w4 & H4 & H)].
  { rewrite H in O.
    destruct O as [(To & O) | [(To & _ & O) | [(To & _ & _ & O)
                   | (To & Ro & io & _ & O)]]];
      try discriminate O. injection O as _ <-. contradiction. }
  rewrite H4 in O.
  pose proof (open_input_parameters_cases pa channels format input z w4) as I.
  cbv zeta in I.
  apply bind_Raise in H. destruct H as [H | (inP & w5 & H5 & H)].
  { rewrite H in I.
    destruct I as [(Ti & I) | [(Ti & _ & I) | [(Ti & _ & _ & I)
                   | (Ti & Ri & ii & _ & I)]]];
      try discriminate I. injection I as _ ->.
    destruct O as [(To & O) | [(To & _ & O) | [(To & _ & _ & O)
                   | (To & Ro & io & _ & O)]]];
      try discriminate O; injection O as _ ->; simpl in Hcalls;
      contradiction. }
  rewrite H5 in I.
  apply bind_Raise in H. destruct H as [H | (ctx & w6 & H6 & H)].
  { rewrite open_callback_context_run in H. destruct cb; discriminate H. }
  rewrite open_callback_context_run in H6.
  pose proof (open_native_stream_cases pa rate fpb cb inP outP ctx w6) as N.
  cbv zeta in N. rewrite H in N.
  assert (Hheap : heap w6 = blocks_allocated input output cb ++ heap w
                  /\ callback_refs w6
                     = callback_refs w
                       + match cb with Some _ => 1 | None => 0 end
                  /\ pa_calls w6 = pa_calls w).
  { unfold blocks_allocated.
    destruct O as [(To & O) | [(To & _ & O) | [(To & _ & _ & O)
                   | (To & Ro & io & _ & O)]]];
      try discriminate O; injection O as _ ->;
    (destruct I as [(Ti & I) | [(Ti & _ & I) | [(Ti & _ & _ & I)
                   | (Ti & Ri & ii & _ & I)]]];
      try discriminate I; injection I as _ ->);
    rewrite To, Ti;
    (destruct cb as [c |]; injection H6 as _ <-; simpl;
     repeat match goal with |- _ /\ _ => split end;
     try reflexivity; lia). }
  destruct Hheap as (Hh & Hr & Hc).
  destruct N as [[_ N] | [(_ & _ & N) | (_ & info & _ & N)]];
    try discriminate N; injection N as _ ->; simpl;
    (split; [exact Hh | split; [exact Hr |]]);
    rewrite Hc; [eexists; split; [reflexivity |]
                | rewrite <- app_assoc; eexists; split; [reflexivity |]];
    intros h Hin; simpl in Hin; intuition discriminate.
Qed.

(** ** The device checks of [PortAudioModule.pa_open] *)

(** X16.  Once the arguments have passed the first checks, an output device
    outside [0, Pa_GetDeviceCount()) makes [PortAudioModule.pa_open] raise
    [IOError(paInvalidDevice, ...)] and leave the world as it found it: the
    block is given back and PortAudio's stream API has not been called. *)
Lemma open_output_device_checked :
  forall (pa : PortAudio) (py : Python) (rate channels : Z)
         (format : PaSampleFormat) (input output : Z)
         (input_device_index_arg output_device_index_arg : option PyObject)
         (frames_per_buffer : Z) (stream_callback : option PyObject)
         (w : World) (input_device_index output_device_index : Z),
    PortAudioModule.open_check_callback stream_callback w = (Return tt, w) ->
    PortAudioModule.device_index py input_device_index_arg
      "input_device_index must be integer (or None)" w
    = (Return input_device_index, w) ->
    PortAudioModule.device_index py output_device_index_arg
      "output_device_index must be integer (or None)" w
    = (Return output_device_index, w) ->
    PortAudioModule.open_check_direction input output channels w = (Return tt, w) ->
    C.truthy output = true ->
    ~ device_in_range pa
        (PortAudioModule.resolve_device output_device_index (Pa_GetDefaultOutputDevice pa)) ->
    PortAudioModule.pa_open pa py rate channels format input output input_device_index_arg
      output_device_index_arg frames_per_buffer stream_callback w
    = (Raise (PyErr_SetObject PyExc_IOError paInvalidDevice
                "Invalid output device (no default output device)"),
       w).
Proof.
  intros pa py rate channels format input output ia oa fpb cb w zi zo
         Hcb Hi Ho Hdir Hout Hrange.
  rewrite pa_open_steps. unfold bind at 1. rewrite Hcb.
  unfold bind at 1. rewrite Hi. unfold bind at 1. rewrite Ho.
  unfold bind at 1. rewrite Hdir. unfold bind at 1.
  pose proof (open_output_parameters_cases pa channels format output zo w) as O.
  cbv zeta in O.
  destruct O as [(To & O) | [(To & _ & O) | [(To & Ro & _ & O)
                 | (To & Ro & io & _ & O)]]];
    try congruence; try contradiction.
  rewrite O. reflexivity.
Qed.

(** ** Opening a stream: failure of the native layer (C2) *)

(** C2, evaluated.  An output stream with a callback is opened and
    [Pa_OpenStream] answers [paInvalidSampleRate]: [pa_open] raises
    [IOError(paInvalidSampleRate, text)] and no stream object exists, but the
    output parameter block, the callback context and the reference taken on
    the callback are still held when it returns.  When [Pa_OpenStream]
    succeeds and [Pa_GetStreamInfo] answers a null pointer, [pa_open] raises
    [IOError(paInternalError, ...)], the same blocks and reference are still
    held, and the native stream is never closed. *)
Theorem open_native_failure_retains_resources :
  PortAudioModule.pa_open
    (Sample.portaudio Sample.paInvalidSampleRate PrimFloat.one 0 0)
    (Sample.python (inr Py_None))
    44100 2 Sample.paInt16 0 1 None None 1024 (Some (PyCallable 0)) world0
  = (Raise (PyErr_SetObject PyExc_IOError Sample.paInvalidSampleRate
              "Invalid sample rate"),
     mkWorld [CallbackContext_block; OutputParameters_block] 1
       [Call_Pa_OpenStream None (Some Sample.output_parameters) 44100 1024
          paClipOff true]
       None [] [])
  /\
  PortAudioModule.pa_open Sample.portaudio_without_info
    (Sample.python (inr Py_None))
    44100 2 Sample.paInt16 0 1 None None 1024 (Some (PyCallable 0)) world0
  = (Raise (PyErr_SetObject PyExc_IOError paInternalError
              "Could not get stream information"),
     mkWorld [CallbackContext_block; OutputParameters_block] 1
       [Call_Pa_OpenStream None (Some Sample.output_parameters) 44100 1024
          paClipOff true;
        Call_Pa_GetStreamInfo (Some 1)]
       None [] []).
Proof. split; reflexivity. Qed.

(** The validation paths of [pa_open] do release what they allocated: an
    output device index out of range costs nothing. *)
Example open_invalid_output_device_releases_block :
  PortAudioModule.pa_open (Sample.portaudio 0 PrimFloat.one 0 0)
    (Sample.python (inr Py_None))
    44100 2 Sample.paInt16 0 1 None (Some (PyLong 7)) 1024
    (Some (PyCallable 0)) world0
  = (Raise (PyErr_SetObject PyExc_IOError paInvalidDevice
              "Invalid output device (no default output device)"),
     world0).
Proof. reflexivity. Qed.

(** A successful open followed by the teardown of the handle gives
    everything back. *)
Example open_then_cleanup_releases_everything :
  match PortAudioModule.pa_open (Sample.portaudio 0 PrimFloat.one 0 0)
          (Sample.python (inr Py_None))
          44100 2 Sample.paInt16 1 1 None None 1024 (Some (PyCallable 0))
          world0 with
  | (Return s, w) =>
      let '(s', w') := PortAudioModule._cleanup_Stream_object s w in
      s' = closed_stream /\ heap w' = [] /\ callback_refs w' = 0
  | _ => False
  end.
Proof. simpl. repeat split. Qed.

(** ** Blocking read on an output-only stream (C3) *)

(** On an open stream without input parameters, a read with a non-negative
    frame count reaches [inputParameters->channelCount] with a null
    [inputParameters]: no Python error is raised.  Both copies. *)
Lemma read_without_input_parameters :
  forall (pa : PortAudio) (streamObject : _pyAudio_Stream)
         (total_frames should_raise_exception : Z) (w : World),
    0 <= total_frames ->
    PortAudioModule._is_open (Some streamObject) = true ->
    inputParameters streamObject = None ->
    PortAudioModule.pa_read_stream pa streamObject total_frames
      should_raise_exception w
    = (Fault NullDereference, streamObject, w)
    /\
    forall is_stream_open cleanup_stream,
      is_stream_open streamObject = true ->
      StreamIO.pa_read_stream is_stream_open cleanup_stream pa streamObject
        total_frames should_raise_exception w
      = (Fault NullDereference, streamObject, w).
Proof.
  intros pa streamObject total_frames flag w Hframes Hopen Hnull.
  unfold PortAudioModule.pa_read_stream, StreamIO.pa_read_stream.
  destruct (Z.ltb_spec total_frames 0) as [Hneg | _]; [lia |].
  rewrite Hopen, Hnull. split; [reflexivity |].
  intros is_stream_open cleanup_stream ->. reflexivity.
Qed.

(** C3, evaluated.  A read of four frames from the open output-only stream
    of [Sample]: the outcome is the null dereference, in both copies, where
    the specification promises a Python error and no allocation. *)
Theorem read_on_output_only_stream_faults :
  PortAudioModule.pa_read_stream (Sample.portaudio 0 PrimFloat.one 0 0)
    Sample.output_only_stream 4 0 Sample.output_only_world
  = (Fault NullDereference, Sample.output_only_stream,
     Sample.output_only_world)
  /\
  StreamIO.pa_read_stream
    (fun s => PortAudioModule._is_open (Some s))
    PortAudioModule._cleanup_Stream_object
    (Sample.portaudio 0 PrimFloat.one 0 0)
    Sample.output_only_stream 4 0 Sample.output_only_world
  = (Fault NullDereference, Sample.output_only_stream,
     Sample.output_only_world).
Proof. split; reflexivity. Qed.

(** A read from a stream that has input parameters allocates
    [total_frames * channelCount * sample size] bytes and returns them. *)
Example read_on_input_stream_returns_buffer :
  PortAudioModule.pa_read_stream (Sample.portaudio 0 PrimFloat.one 0 0)
    Sample.input_only_stream 2 0 world0
  = (Return (PyBytes [x00; x00; x00; x00; x00; x00; x00; x00]),
     Sample.input_only_stream,
     mkWorld [] 0 [Call_Pa_ReadStream (Some 1) 2] None [] []).
Proof. reflexivity. Qed.

(** A read whose byte count does not fit an [int]: [2^29] frames of two
    16-bit channels make [num_bytes] negative, [PyBytes_FromStringAndSize]
    answers NULL and [PyBytes_AsString] reads through it. *)
Example read_negative_size_faults :
  PortAudioModule.pa_read_stream (Sample.portaudio 0 PrimFloat.one 0 0)
    Sample.input_only_stream (2 ^ 29) 0 world0
  = (Fault NullDereference, Sample.input_only_stream, world0).
Proof. reflexivity. Qed.

(** ** Opening a stream: the device index (C4) *)

(** C4, evaluated.  PortAudio knows two devices.  With output device index 7
    [pa_open] raises [IOError(paInvalidDevice, ...)] and has called nothing
    of the stream API; with input device index 7 the check ([device < 0]
    only) lets the index through, no error is raised, and the code goes on
    to read the latency through the null pointer that [Pa_GetDeviceInfo(7)]
    answers. *)
Theorem open_input_device_index_not_range_checked :
  Pa_GetDeviceCount (Sample.portaudio 0 PrimFloat.one 0 0) = 2
  /\
  PortAudioModule.pa_open (Sample.portaudio 0 PrimFloat.one 0 0)
    (Sample.python (inr Py_None))
    44100 2 Sample.paInt16 0 1 None (Some (PyLong 7)) 1024 None world0
  = (Raise (PyErr_SetObject PyExc_IOError paInvalidDevice
              "Invalid output device (no default output device)"),
     world0)
  /\
  PortAudioModule.pa_open (Sample.portaudio 0 PrimFloat.one 0 0)
    (Sample.python (inr Py_None))
    44100 2 Sample.paInt16 1 0 (Some (PyLong 7)) None 1024 None world0
  = (Fault NullDereference,
     mkWorld [InputParameters_block] 0 [] None [] []).
Proof. repeat split. Qed.

(** A float as device index: 1.0 selects device 1; a nan passes
    [PyNumber_Check], [PyNumber_Long] fails on it, and [Py_DECREF] meets the
    null pointer before any check of the direction. *)
Example open_float_device_index :
  PortAudioModule.device_index (Sample.python (inr Py_None))
    (Some (PyFloat PrimFloat.one))
    "output_device_index must be integer (or None)" world0
  = (Return 1, world0)
  /\
  PortAudioModule.pa_open (Sample.portaudio 0 PrimFloat.one 0 0)
    (Sample.python (inr Py_None))
    44100 2 Sample.paInt16 0 0 None (Some (PyFloat PrimFloat.nan)) 1024 None
    world0
  = (Fault NullDereference, world0).
Proof. split; reflexivity. Qed.

(** A negative [frames_per_buffer] reaches PortAudio as an
    [unsigned long]. *)
Example open_negative_frames_per_buffer :
  snd (PortAudioModule.pa_open (Sample.portaudio 0 PrimFloat.one 0 0)
         (Sample.python (inr Py_None))
         44100 2 Sample.paInt16 0 1 None None (-1) None world0)
  = mkWorld [OutputParameters_block] 0
      [Call_Pa_OpenStream None (Some Sample.output_parameters) 44100
         (2 ^ 64 - 1) paClipOff false;
       Call_Pa_GetStreamInfo (Some 1)]
      None [] [].
Proof. reflexivity. Qed.

(** * Further properties of the code *)

(** ** Closing a stream *)

(** X1.  Closing is idempotent: whatever the handle and the world, a second
    [pa_close] after a first one returns [None] and changes nothing (no
    second [Pa_CloseStream], no block freed twice, no reference dropped
    twice), and neither does the deallocation of the closed object. *)
Theorem close_is_idempotent :
  forall (streamObject : _pyAudio_Stream) (w : World),
    let '(_, s1, w1) := StreamObject.pa_close streamObject w in
    s1 = closed_stream
    /\ StreamObject.pa_close s1 w1 = (Return Py_None, s1, w1)
    /\ StreamObject._pyAudio_Stream_dealloc s1 w1 = w1.
Proof.
  intros [st ip op si cc io] [h r c e a p].
  unfold StreamObject.pa_close, StreamObject._pyAudio_Stream_dealloc,
         PortAudioModule._cleanup_Stream_object.
  simpl. repeat split.
Qed.

(** How a successful [pa_open] ends: with the parameter blocks and the
    context of the earlier steps, [open_native_stream] returned the
    object. *)
Lemma pa_open_Return_inv :
  forall (pa : PortAudio) (py : Python) (rate channels : Z)
         (format : PaSampleFormat) (input output : Z)
         (input_device_index_arg output_device_index_arg : option PyObject)
         (frames_per_buffer : Z) (stream_callback : option PyObject)
         (w w' : World) (s : _pyAudio_Stream),
    PortAudioModule.pa_open pa py rate channels format input output
      input_device_index_arg output_device_index_arg frames_per_buffer
      stream_callback w
    = (Return s, w') ->
    exists inP outP ctx w6,
      PortAudioModule.open_native_stream pa rate frames_per_buffer
        stream_callback inP outP ctx w6
      = (Return s, w').
Proof.
  intros pa py rate channels format input output ia oa fpb cb w w' s H.
  rewrite pa_open_steps in H.
  apply bind_Return in H. destruct H as (u0 & w0 & _ & H).
  apply bind_Return in H. destruct H as (zi & w1 & _ & H).
  apply bind_Return in H. destruct H as (zo & w2 & _ & H).
  apply bind_Return in H. destruct H as (u3 & w3 & _ & H).
  apply bind_Return in H. destruct H as (outP & w4 & _ & H).
  apply bind_Return in H. destruct H as (inP & w5 & _ & H).
  apply bind_Return in H. destruct H as (ctx & w6 & _ & H).
  exists inP, outP, ctx, w6. exact H.
Qed.

(** X2.  Open followed by close retains nothing: when [pa_open] returns a
    stream object, closing it leaves the object closed and gives the heap
    and the count of callback references back as they were before the open;
    the native stream, if PortAudio handed one out, is closed once. *)
Theorem open_then_close_releases_everything :
  forall (pa : PortAudio) (py : Python) (rate channels : Z)
         (format : PaSampleFormat) (input output : Z)
         (input_device_index_arg output_device_index_arg : option PyObject)
         (frames_per_buffer : Z) (stream_callback : option PyObject)
         (w w' : World) (s : _pyAudio_Stream),
    PortAudioModule.pa_open pa py rate channels format input output
      input_device_index_arg output_device_index_arg frames_per_buffer
      stream_callback w
    = (Return s, w') ->
    exists w'' : World,
      StreamObject.pa_close s w' = (Return Py_None, closed_stream, w'')
      /\ heap w'' = heap w
      /\ callback_refs w'' = callback_refs w
      /\ pa_calls w''
         = pa_calls w'
           ++ match stream s with Some h => [Call_Pa_CloseStream h] | None => [] end.
Proof.
  intros pa py rate channels format input output ia oa fpb cb w w' s H.
  destruct (open_success_shape _ _ _ _ _ _ _ _ _ _ _ _ _ _ H)
    as (_ & Hctx & _ & _ & _ & Hheap & Hrefs).
  destruct (cleanup_closes_stream s w') as (Hs & Hr & Hc).
  pose proof (cleanup_releases_blocks s w' (heap w) Hheap) as Hb.
  unfold StreamObject.pa_close.
  destruct (PortAudioModule._cleanup_Stream_object s w') as [s1 w1].
  simpl in *. subst s1.
  exists w1. split; [reflexivity |]. split; [exact Hb |].
  split; [| exact Hc].
  rewrite Hr, Hrefs, Hctx. destruct cb; lia.
Qed.

Lemma open_then_close_releases_everything_witness :
  exists w'' : World,
    StreamObject.pa_close Sample2.callback_stream
      (mkWorld [CallbackContext_block; InputParameters_block;
                OutputParameters_block] 1
         [Call_Pa_OpenStream (Some Sample.input_parameters)
            (Some Sample.output_parameters) 44100 1024 paClipOff true;
          Call_Pa_GetStreamInfo (Some 1)] None [] [])
    = (Return Py_None, closed_stream, w'')
    /\ heap w'' = []
    /\ callback_refs w'' = 0
    /\ pa_calls w''
       = [Call_Pa_OpenStream (Some Sample.input_parameters)
            (Some Sample.output_parameters) 44100 1024 paClipOff true;
          Call_Pa_GetStreamInfo (Some 1); Call_Pa_CloseStream 1].
Proof.
  exact (open_then_close_releases_everything
           (Sample.portaudio 0 PrimFloat.one 0 0) (Sample.python (inr Py_None))
           44100 2 Sample.paInt16 1 1 None None 1024 (Some (PyCallable 0))
           world0
           (mkWorld [CallbackContext_block; InputParameters_block;
                     OutputParameters_block] 1
              [Call_Pa_OpenStream (Some Sample.input_parameters)
                 (Some Sample.output_parameters) 44100 1024 paClipOff true;
               Call_Pa_GetStreamInfo (Some 1)] None [] [])
           Sample2.callback_stream eq_refl).
Defined.

(** ** The read-only properties of the stream object *)

(** X3.  After a teardown, whatever the handle was, each of the four
    property reads raises [IOError(paBadStreamPtr, "Stream closed")]: no
    latency, rate or version of the old stream info is ever returned. *)
Theorem property_reads_fail_after_teardown :
  forall (streamObject : _pyAudio_Stream) (w : World),
    let s' := fst (PortAudioModule._cleanup_Stream_object streamObject w) in
    StreamObject._pyAudio_Stream_get_structVersion s' = Raise stream_closed_error
    /\ StreamObject._pyAudio_Stream_get_inputLatency s' = Raise stream_closed_error
    /\ StreamObject._pyAudio_Stream_get_outputLatency s' = Raise stream_closed_error
    /\ StreamObject._pyAudio_Stream_get_sampleRate s' = Raise stream_closed_error.
Proof.
  intros s w s'.
  assert (Hs : s' = closed_stream) by apply cleanup_closes_stream.
  rewrite Hs. repeat split.
Qed.

(** X4.  On the object that [pa_open] returns, the four property reads
    succeed and return the fields of the record that [Pa_GetStreamInfo]
    answered for the stream that was opened. *)
Theorem property_reads_after_open :
  forall (pa : PortAudio) (py : Python) (rate channels : Z)
         (format : PaSampleFormat) (input output : Z)
         (input_device_index_arg output_device_index_arg : option PyObject)
         (frames_per_buffer : Z) (stream_callback : option PyObject)
         (w w' : World) (s : _pyAudio_Stream),
    PortAudioModule.pa_open pa py rate channels format input output
      input_device_index_arg output_device_index_arg frames_per_buffer
      stream_callback w
    = (Return s, w') ->
    exists info : PaStreamInfo,
      Pa_GetStreamInfo pa (stream s) = Some info
      /\ StreamObject._pyAudio_Stream_get_structVersion s
         = Return (PyLong (structVersion info))
      /\ StreamObject._pyAudio_Stream_get_inputLatency s
         = Return (PyFloat (inputLatency info))
      /\ StreamObject._pyAudio_Stream_get_outputLatency s
         = Return (PyFloat (outputLatency info))
      /\ StreamObject._pyAudio_Stream_get_sampleRate s
         = Return (PyFloat (sampleRate info)).
Proof.
  intros pa py rate channels format input output ia oa fpb cb w w' s H.
  apply pa_open_Return_inv in H. destruct H as (inP & outP & ctx & w6 & H).
  pose proof (open_native_stream_cases pa rate fpb cb inP outP ctx w6) as N.
  cbv zeta in N. rewrite H in N.
  destruct N as [[_ N] | [(_ & _ & N) | (_ & info & Hinfo & N)]];
    try discriminate N.
  injection N as -> _.
  exists info. simpl. split; [exact Hinfo |]. repeat split.
Qed.

Lemma property_reads_after_open_witness :
  exists info : PaStreamInfo,
    Some Sample.stream_info = Some info
    /\ StreamObject._pyAudio_Stream_get_structVersion Sample2.callback_stream
       = Return (PyLong (structVersion info))
    /\ StreamObject._pyAudio_Stream_get_inputLatency Sample2.callback_stream
       = Return (PyFloat (inputLatency info))
    /\ StreamObject._pyAudio_Stream_get_outputLatency Sample2.callback_stream
       = Return (PyFloat (outputLatency info))
    /\ StreamObject._pyAudio_Stream_get_sampleRate Sample2.callback_stream
       = Return (PyFloat (sampleRate info)).
Proof.
  exact (property_reads_after_open
           (Sample.portaudio 0 PrimFloat.one 0 0) (Sample.python (inr Py_None))
           44100 2 Sample.paInt16 1 1 None None 1024 (Some (PyCallable 0))
           world0
           (mkWorld [CallbackContext_block; InputParameters_block;
                     OutputParameters_block] 1
              [Call_Pa_OpenStream (Some Sample.input_parameters)
                 (Some Sample.output_parameters) 44100 1024 paClipOff true;
               Call_Pa_GetStreamInfo (Some 1)] None [] [])
           Sample2.callback_stream eq_refl).
Defined.

(** ** Operations on a closed handle *)

(** X5.  On a handle that is not open, every stream operation raises an
    [IOError] and leaves the handle, the world and the record of PortAudio
    calls exactly as they were: nothing reaches PortAudio.  Start, the
    stopped query, time, CPU load, write, read, the availability queries and
    the property reads report [(paBadStreamPtr, "Stream closed")]; stop,
    abort and the active query report the bare message ["Stream not
    open"]. *)
Theorem closed_handle_reaches_no_native_call :
  forall (pc : PortAudioControl) (pa : PortAudio)
         (streamObject : _pyAudio_Stream) (h : Host),
    PortAudioModule._is_open (Some streamObject) = false ->
    StreamControl.pa_start_stream pc pa streamObject h
    = (Raise stream_closed_error, streamObject, h)
    /\ StreamControl.pa_stop_stream pc pa streamObject h
       = (Raise stream_not_open_error, streamObject, h)
    /\ StreamControl.pa_abort_stream pc pa streamObject h
       = (Raise stream_not_open_error, streamObject, h)
    /\ StreamControl.pa_is_stream_stopped pc pa streamObject h
       = (Raise stream_closed_error, streamObject, h)
    /\ StreamControl.pa_is_stream_active pc pa streamObject h
       = (Raise stream_not_open_error, streamObject, h)
    /\ StreamControl.pa_get_stream_cpu_load pc streamObject h
       = (Raise stream_closed_error, streamObject, h)
    /\ PortAudioModule.pa_get_stream_time pa streamObject (world h)
       = (Raise stream_closed_error, streamObject, world h)
    /\ PortAudioModule.pa_get_stream_write_available pa streamObject (world h)
       = (Raise stream_closed_error, streamObject, world h)
    /\ PortAudioModule.pa_get_stream_read_available pa streamObject (world h)
       = (Raise stream_closed_error, streamObject, world h)
    /\ (forall (data : list byte) (total_size total_frames flag : Z),
          0 <= total_frames ->
          PortAudioModule.pa_write_stream pa streamObject data total_size
            total_frames flag (world h)
          = (Raise stream_closed_error, streamObject, world h))
    /\ (forall total_frames flag : Z,
          0 <= total_frames ->
          PortAudioModule.pa_read_stream pa streamObject total_frames flag
            (world h)
          = (Raise stream_closed_error, streamObject, world h))
    /\ StreamObject._pyAudio_Stream_get_structVersion streamObject
       = Raise stream_closed_error
    /\ StreamObject._pyAudio_Stream_get_inputLatency streamObject
       = Raise stream_closed_error
    /\ StreamObject._pyAudio_Stream_get_outputLatency streamObject
       = Raise stream_closed_error
    /\ StreamObject._pyAudio_Stream_get_sampleRate streamObject
       = Raise stream_closed_error.
Proof.
  intros pc pa s h Hclosed.
  unfold StreamControl.pa_start_stream, StreamControl.pa_stop_stream,
    StreamControl.pa_abort_stream, StreamControl.pa_is_stream_stopped,
    StreamControl.pa_is_stream_active, StreamControl.pa_get_stream_cpu_load,
    PortAudioModule.pa_get_stream_time,
    PortAudioModule.pa_get_stream_write_available,
    PortAudioModule.pa_get_stream_read_available,
    PortAudioModule.pa_write_stream, PortAudioModule.pa_read_stream,
    StreamObject._pyAudio_Stream_get_structVersion,
    StreamObject._pyAudio_Stream_get_inputLatency,
    StreamObject._pyAudio_Stream_get_outputLatency,
    StreamObject._pyAudio_Stream_get_sampleRate.
  rewrite Hclosed. simpl negb. cbv iota.
  repeat match goal with |- _ /\ _ => split end; try reflexivity.
  - intros data total_size total_frames flag Hf.
    destruct (Z.ltb_spec total_frames 0); [lia | reflexivity].
  - intros total_frames flag Hf.
    destruct (Z.ltb_spec total_frames 0); [lia | reflexivity].
Qed.

Lemma closed_handle_reaches_no_native_call_witness :
  StreamControl.pa_start_stream (Sample2.control 0 0)
    (Sample.portaudio 0 PrimFloat.one 0 0) closed_stream (Sample2.host world0)
  = (Raise stream_closed_error, closed_stream, Sample2.host world0).
Proof.
  exact (proj1 (closed_handle_reaches_no_native_call (Sample2.control 0 0)
                  (Sample.portaudio 0 PrimFloat.one 0 0) closed_stream
                  (Sample2.host world0) eq_refl)).
Defined.

(** ** Start, stop, abort and the state queries *)

Lemma cleanup_tears_down (s : _pyAudio_Stream) (w : World) :
  torn_down s w (snd (PortAudioModule._cleanup_Stream_object s w)).
Proof.
  destruct (cleanup_closes_stream s w) as (_ & Hr & Hc).
  split; [exact Hc | split; [exact Hr |]].
  intros rest Hheap. apply cleanup_releases_blocks. exact Hheap.
Qed.

Lemma control_cleanup_run (s : _pyAudio_Stream) (h : Host) :
  exists w',
    StreamControl.cleanup s h = (closed_stream, mkHost w' (control_calls h))
    /\ torn_down s (world h) w'.
Proof.
  unfold StreamControl.cleanup.
  pose proof (cleanup_tears_down s (world h)) as T.
  destruct (cleanup_closes_stream s (world h)) as (Hs & _ & _).
  destruct (PortAudioModule._cleanup_Stream_object s (world h)) as [s1 w1].
  simpl in *. subst s1. exists w1. split; [reflexivity | exact T].
Qed.

(** The failing branch shared by the five functions: after the control call
    [c], the handle is torn down. *)
Ltac control_failure s h1 :=
  let w' := fresh "w'" in
  let E := fresh "E" in
  let T := fresh "T" in
  destruct (control_cleanup_run s h1) as (w' & E & T);
  rewrite E; exists w'; split; [reflexivity | exact T].

(** X6.  Start is idempotent and otherwise fatal.  On an open stream
    [pa_start_stream] calls [Pa_StartStream] once; on [paNoError], and on
    [paStreamIsNotStopped] (the stream was already started), it returns
    [None] and leaves the handle as it was; on any other status it tears
    the handle down and raises [IOError(status, text)]. *)
Theorem start_stream_outcome :
  forall (pc : PortAudioControl) (pa : PortAudio)
         (streamObject : _pyAudio_Stream) (h : Host),
    PortAudioModule._is_open (Some streamObject) = true ->
    let err := Pa_StartStream pc (stream streamObject) in
    let h1 := control (Call_Pa_StartStream (stream streamObject)) h in
    (err = paNoError \/ err = paStreamIsNotStopped ->
     StreamControl.pa_start_stream pc pa streamObject h
     = (Return Py_None, streamObject, h1))
    /\
    (err <> paNoError -> err <> paStreamIsNotStopped ->
     exists w' : World,
       StreamControl.pa_start_stream pc pa streamObject h
       = (Raise (PyErr_SetObject PyExc_IOError err (Pa_GetErrorText pa err)),
          closed_stream, mkHost w' (control_calls h1))
       /\ torn_down streamObject (world h) w').
Proof.
  intros pc pa s h Hopen err h1.
  unfold StreamControl.pa_start_stream. rewrite Hopen. simpl negb. cbv iota.
  fold err. fold h1.
  split.
  - intros [E | E]; rewrite E; reflexivity.
  - intros H1 H2.
    destruct (Z.eqb_spec err paNoError) as [E | _]; [contradiction |].
    destruct (Z.eqb_spec err paStreamIsNotStopped) as [E | _]; [contradiction |].
    simpl andb. cbv iota.
    control_failure s h1.
Qed.

Lemma start_stream_outcome_witness :
  StreamControl.pa_start_stream (Sample2.control paStreamIsNotStopped 0)
    (Sample.portaudio 0 PrimFloat.one 0 0) Sample2.callback_stream
    (Sample2.host Sample2.callback_world)
  = (Return Py_None, Sample2.callback_stream,
     mkHost Sample2.callback_world [Call_Pa_StartStream (Some 1)])
  /\
  exists w' : World,
    StreamControl.pa_start_stream (Sample2.control paInternalError 0)
      (Sample.portaudio 0 PrimFloat.one 0 0) Sample2.callback_stream
      (Sample2.host Sample2.callback_world)
    = (Raise (PyErr_SetObject PyExc_IOError paInternalError "PortAudio error"),
       closed_stream, mkHost w' [Call_Pa_StartStream (Some 1)])
    /\ torn_down Sample2.callback_stream Sample2.callback_world w'.
Proof.
  split.
  - exact (proj1 (start_stream_outcome
                    (Sample2.control paStreamIsNotStopped 0)
                    (Sample.portaudio 0 PrimFloat.one 0 0)
                    Sample2.callback_stream
                    (Sample2.host Sample2.callback_world) eq_refl)
                 (or_intror eq_refl)).
  - apply (proj2 (start_stream_outcome
                    (Sample2.control paInternalError 0)
                    (Sample.portaudio 0 PrimFloat.one 0 0)
                    Sample2.callback_stream
                    (Sample2.host Sample2.callback_world) eq_refl)).
    + vm_compute. discriminate.
    + vm_compute. discriminate.
Defined.

(** X7.  Stop and abort tolerate a stream that is already stopped.  On an
    open stream each calls its PortAudio function once; on [paNoError] and
    on [paStreamIsStopped] it returns [None] and leaves the handle as it
    was; on any other status it tears the handle down and raises
    [IOError(status, text)]. *)
Theorem stop_and_abort_outcome :
  forall (pc : PortAudioControl) (pa : PortAudio)
         (streamObject : _pyAudio_Stream) (h : Host),
    PortAudioModule._is_open (Some streamObject) = true ->
    (let err := Pa_StopStream pc (stream streamObject) in
     let h1 := control (Call_Pa_StopStream (stream streamObject)) h in
     (err = paNoError \/ err = paStreamIsStopped ->
      StreamControl.pa_stop_stream pc pa streamObject h
      = (Return Py_None, streamObject, h1))
     /\
     (err <> paNoError -> err <> paStreamIsStopped ->
      exists w' : World,
        StreamControl.pa_stop_stream pc pa streamObject h
        = (Raise (PyErr_SetObject PyExc_IOError err (Pa_GetErrorText pa err)),
           closed_stream, mkHost w' (control_calls h1))
        /\ torn_down streamObject (world h) w'))
    /\
    (let err := Pa_AbortStream pc (stream streamObject) in
     let h1 := control (Call_Pa_AbortStream (stream streamObject)) h in
     (err = paNoError \/ err = paStreamIsStopped ->
      StreamControl.pa_abort_stream pc pa streamObject h
      = (Return Py_None, streamObject, h1))
     /\
     (err <> paNoError -> err <> paStreamIsStopped ->
      exists w' : World,
        StreamControl.pa_abort_stream pc pa streamObject h
        = (Raise (PyErr_SetObject PyExc_IOError err (Pa_GetErrorText pa err)),
           closed_stream, mkHost w' (control_calls h1))
        /\ torn_down streamObject (world h) w')).
Proof.
  intros pc pa s h Hopen.
  unfold StreamControl.pa_stop_stream, StreamControl.pa_abort_stream.
  rewrite Hopen. simpl negb. cbv iota zeta.
  split; (split;
    [ intros [E | E]; rewrite E; reflexivity
    | intros H1 H2;
      match goal with
      | |- context [?e =? paNoError] =>
          destruct (Z.eqb_spec e paNoError) as [E | _]; [contradiction |];
          destruct (Z.eqb_spec e paStreamIsStopped) as [E | _];
            [contradiction |]
      end;
      simpl andb; cbv iota;
      match goal with
      | |- context [StreamControl.cleanup ?s0 ?h1] => control_failure s0 h1
      end ]).
Qed.

Lemma stop_and_abort_outcome_witness :
  StreamControl.pa_stop_stream (Sample2.control paStreamIsStopped 0)
    (Sample.portaudio 0 PrimFloat.one 0 0) Sample2.callback_stream
    (Sample2.host Sample2.callback_world)
  = (Return Py_None, Sample2.callback_stream,
     mkHost Sample2.callback_world [Call_Pa_StopStream (Some 1)]).
Proof.
  exact (proj1 (proj1 (stop_and_abort_outcome
                         (Sample2.control paStreamIsStopped 0)
                         (Sample.portaudio 0 PrimFloat.one 0 0)
                         Sample2.callback_stream
                         (Sample2.host Sample2.callback_world) eq_refl))
               (or_intror eq_refl)).
Defined.

(** X8.  The two state queries.  On an open stream each calls its
    PortAudio function once; a negative answer tears the handle down and
    raises [IOError(answer, text)], a positive answer gives [True], zero
    gives [False], and in the last two cases the handle is left as it
    was. *)
Theorem state_queries_outcome :
  forall (pc : PortAudioControl) (pa : PortAudio)
         (streamObject : _pyAudio_Stream) (h : Host),
    PortAudioModule._is_open (Some streamObject) = true ->
    (let err := Pa_IsStreamStopped pc (stream streamObject) in
     let h1 := control (Call_Pa_IsStreamStopped (stream streamObject)) h in
     (0 <= err ->
      StreamControl.pa_is_stream_stopped pc pa streamObject h
      = (Return (0 <? err), streamObject, h1))
     /\
     (err < 0 ->
      exists w' : World,
        StreamControl.pa_is_stream_stopped pc pa streamObject h
        = (Raise (PyErr_SetObject PyExc_IOError err (Pa_GetErrorText pa err)),
           closed_stream, mkHost w' (control_calls h1))
        /\ torn_down streamObject (world h) w'))
    /\
    (let err := Pa_IsStreamActive pc (stream streamObject) in
     let h1 := control (Call_Pa_IsStreamActive (stream streamObject)) h in
     (0 <= err ->
      StreamControl.pa_is_stream_active pc pa streamObject h
      = (Return (0 <? err), streamObject, h1))
     /\
     (err < 0 ->
      exists w' : World,
        StreamControl.pa_is_stream_active pc pa streamObject h
        = (Raise (PyErr_SetObject PyExc_IOError err (Pa_GetErrorText pa err)),
           closed_stream, mkHost w' (control_calls h1))
        /\ torn_down streamObject (world h) w')).
Proof.
  intros pc pa s h Hopen.
  unfold StreamControl.pa_is_stream_stopped, StreamControl.pa_is_stream_active.
  rewrite Hopen. simpl negb. cbv iota zeta.
  split; (split;
    [ intros Hpos;
      match goal with
      | |- context [?e <? 0] =>
          destruct (Z.ltb_spec e 0) as [Hneg | _]; [lia |];
          unfold C.truthy;
          destruct (Z.eqb_spec e 0) as [E | Hne]; simpl;
          [ rewrite E; reflexivity
          | destruct (Z.ltb_spec 0 e); [reflexivity | lia] ]
      end
    | intros Hneg;
      match goal with
      | |- context [?e <? 0] =>
          destruct (Z.ltb_spec e 0) as [_ | Hge]; [| lia]
      end;
      match goal with
      | |- context [StreamControl.cleanup ?s0 ?h1] => control_failure s0 h1
      end ]).
Qed.

Lemma state_queries_outcome_witness :
  StreamControl.pa_is_stream_active (Sample2.control 0 1)
    (Sample.portaudio 0 PrimFloat.one 0 0) Sample2.callback_stream
    (Sample2.host Sample2.callback_world)
  = (Return true, Sample2.callback_stream,
     mkHost Sample2.callback_world [Call_Pa_IsStreamActive (Some 1)]).
Proof.
  refine (proj1 (proj2 (state_queries_outcome
                          (Sample2.control 0 1)
                          (Sample.portaudio 0 PrimFloat.one 0 0)
                          Sample2.callback_stream
                          (Sample2.host Sample2.callback_world) eq_refl)) _).
  simpl. lia.
Defined.

(** X9.  A handle that a refused start has torn down is closed for good:
    the object that [pa_start_stream] leaves behind makes a second start and
    every write raise [IOError(paBadStreamPtr, "Stream closed")] without
    reaching PortAudio. *)
Theorem refused_start_closes_handle :
  forall (pc : PortAudioControl) (pa : PortAudio)
         (streamObject : _pyAudio_Stream) (h : Host),
    PortAudioModule._is_open (Some streamObject) = true ->
    Pa_StartStream pc (stream streamObject) <> paNoError ->
    Pa_StartStream pc (stream streamObject) <> paStreamIsNotStopped ->
    let '(_, s', h') := StreamControl.pa_start_stream pc pa streamObject h in
    StreamControl.pa_start_stream pc pa s' h'
    = (Raise stream_closed_error, s', h')
    /\ forall (data : list byte) (total_size total_frames flag : Z),
         0 <= total_frames ->
         PortAudioModule.pa_write_stream pa s' data total_size total_frames
           flag (world h')
         = (Raise stream_closed_error, s', world h').
Proof.
  intros pc pa s h Hopen H1 H2.
  unfold StreamControl.pa_start_stream at 1. rewrite Hopen. simpl negb.
  cbv iota zeta.
  destruct (Z.eqb_spec (Pa_StartStream pc (stream s)) paNoError)
    as [E | _]; [contradiction |].
  destruct (Z.eqb_spec (Pa_StartStream pc (stream s)) paStreamIsNotStopped)
    as [E | _]; [contradiction |].
  simpl andb. cbv iota.
  destruct (control_cleanup_run s (control (Call_Pa_StartStream (stream s)) h))
    as (w' & E & _).
  rewrite E. split; [reflexivity |].
  intros data total_size total_frames flag Hf.
  unfold PortAudioModule.pa_write_stream.
  destruct (Z.ltb_spec total_frames 0); [lia | reflexivity].
Qed.

Lemma refused_start_closes_handle_witness :
  let '(_, s', h') :=
    StreamControl.pa_start_stream (Sample2.control paInternalError 0)
      (Sample.portaudio 0 PrimFloat.one 0 0) Sample2.callback_stream
      (Sample2.host Sample2.callback_world) in
  StreamControl.pa_start_stream (Sample2.control paInternalError 0)
    (Sample.portaudio 0 PrimFloat.one 0 0) s' h'
  = (Raise stream_closed_error, s', h')
  /\ forall (data : list byte) (total_size total_frames flag : Z),
       0 <= total_frames ->
       PortAudioModule.pa_write_stream (Sample.portaudio 0 PrimFloat.one 0 0)
         s' data total_size total_frames flag (world h')
       = (Raise stream_closed_error, s', world h').
Proof.
  apply (refused_start_closes_handle (Sample2.control paInternalError 0)
           (Sample.portaudio 0 PrimFloat.one 0 0) Sample2.callback_stream
           (Sample2.host Sample2.callback_world) eq_refl).
  - vm_compute. discriminate.
  - vm_compute. discriminate.
Defined.

(** ** The callback bridge on every path *)













(** ** Witnesses for the bridge's fault paths *)



(** An input-only stream whose callback asks to stop. *)
Lemma callback_input_only_returns_code_witness :
  PortAudioModule._stream_callback_cfunction
    (Sample.python (inr (PyTuple [Py_None; PyLong paComplete])))
    (Some [x01; x02; x03; x04]) None 1 Sample.time_info 0 Sample.context
    world0
  = Returned (paComplete, None, world0).
Proof.
  exact (callback_input_only_returns_code
           (Sample.python (inr (PyTuple [Py_None; PyLong paComplete])))
           (Some [x01; x02; x03; x04]) 1 Sample.time_info 0 Sample.context
           world0 Py_None [] paComplete eq_refl eq_refl
           (or_intror (or_introl eq_refl))).
Defined.

(** ** More on [pa_open] *)

(** Output device index 2 on a machine with two devices. *)
Lemma open_output_device_checked_witness :
  PortAudioModule.pa_open (Sample.portaudio 0 PrimFloat.one 0 0)
    (Sample.python (inr Py_None))
    44100 2 Sample.paInt16 0 1 None (Some (PyLong 2)) 1024 None world0
  = (Raise (PyErr_SetObject PyExc_IOError paInvalidDevice
              "Invalid output device (no default output device)"),
     world0).
Proof.
  refine (open_output_device_checked (Sample.portaudio 0 PrimFloat.one 0 0)
            (Sample.python (inr Py_None))
            44100 2 Sample.paInt16 0 1 None (Some (PyLong 2)) 1024 None world0
            (-1) 2 eq_refl eq_refl eq_refl eq_refl eq_refl _).
  change (~ (0 <= 2 < 2)). lia.
Defined.

(** X17.  The handle that a successful [pa_open] returns is consistent: it
    is open; its callback context, if a callback was given, holds that
    callback, the identifier of the calling thread and the frame size
    [Pa_GetSampleSize(format) * channels] as an [unsigned int]; its output
    device is one PortAudio knows and its input device is not negative; it
    owns exactly the blocks allocated for the requested directions and the
    callback, and these are what the call added to the heap, with one
    reference taken on the callback. *)
Theorem opened_handle_is_consistent :
  forall (pa : PortAudio) (py : Python) (rate channels : Z)
         (format : PaSampleFormat) (input output : Z)
         (input_device_index_arg output_device_index_arg : option PyObject)
         (frames_per_buffer : Z) (stream_callback : option PyObject)
         (w w' : World) (s : _pyAudio_Stream),
    PortAudioModule.pa_open pa py rate channels format input output
      input_device_index_arg output_device_index_arg frames_per_buffer
      stream_callback w
    = (Return s, w') ->
    PortAudioModule._is_open (Some s) = true
    /\ callbackContext s
       = match stream_callback with
         | Some cb =>
             Some (mkPyAudioCallbackContext cb (current_thread_id py)
                     (C.to_uint (Pa_GetSampleSize pa format * channels)))
         | None => None
         end
    /\ (forall p, outputParameters s = Some p -> device_in_range pa (device p))
    /\ (forall p, inputParameters s = Some p -> 0 <= device p)
    /\ owned_blocks s = blocks_allocated input output stream_callback
    /\ heap w' = owned_blocks s ++ heap w
    /\ callback_refs w'
       = callback_refs w
         + match stream_callback with Some _ => 1 | None => 0 end.
Proof.
  intros pa py rate channels format input output ia oa fpb cb w w' s H.
  destruct (open_success_shape _ _ _ _ _ _ _ _ _ _ _ _ _ _ H)
    as (Hopen & Hrest).
  split; [| exact Hrest].
  unfold PortAudioModule._is_open. rewrite Hopen. reflexivity.
Qed.

Lemma opened_handle_is_consistent_witness :
  PortAudioModule._is_open (Some Sample2.callback_stream) = true
  /\ callbackContext Sample2.callback_stream = Some Sample.context
  /\ (forall p, outputParameters Sample2.callback_stream = Some p ->
                device_in_range (Sample.portaudio 0 PrimFloat.one 0 0) (device p))
  /\ (forall p, inputParameters Sample2.callback_stream = Some p ->
                0 <= device p)
  /\ owned_blocks Sample2.callback_stream
     = [CallbackContext_block; InputParameters_block; OutputParameters_block]
  /\ [CallbackContext_block; InputParameters_block; OutputParameters_block]
     = owned_blocks Sample2.callback_stream ++ []
  /\ 1 = 0 + 1.
Proof.
  exact (opened_handle_is_consistent
           (Sample.portaudio 0 PrimFloat.one 0 0) (Sample.python (inr Py_None))
           44100 2 Sample.paInt16 1 1 None None 1024 (Some (PyCallable 0))
           world0
           (mkWorld [CallbackContext_block; InputParameters_block;
                     OutputParameters_block] 1
              [Call_Pa_OpenStream (Some Sample.input_parameters)
                 (Some Sample.output_parameters) 44100 1024 paClipOff true;
               Call_Pa_GetStreamInfo (Some 1)] None [] [])
           Sample2.callback_stream eq_refl).
Defined.

(** X18.  Errors in the arguments cost nothing: whenever [pa_open] raises a
    [TypeError] or a [ValueError] (callback not callable, device index not a
    number, no direction, fewer than one channel), the world is exactly as
    before the call: nothing was allocated, no reference taken, PortAudio
    not called. *)
Theorem open_argument_errors_have_no_effect :
  forall (pa : PortAudio) (py : Python) (rate channels : Z)
         (format : PaSampleFormat) (input output : Z)
         (input_device_index_arg output_device_index_arg : option PyObject)
         (frames_per_buffer : Z) (stream_callback : option PyObject)
         (w w' : World) (e : PyErr),
    PortAudioModule.pa_open pa py rate channels format input output
      input_device_index_arg output_device_index_arg frames_per_buffer
      stream_callback w
    = (Raise e, w') ->
    err_type e = PyExc_TypeError \/ err_type e = PyExc_ValueError ->
    w' = w.
Proof.
  intros pa py rate channels format input output ia oa fpb cb w w' e H Htype.
  assert (Hio : forall c t, e = PyErr_SetObject PyExc_IOError c t -> False).
  { intros c t ->. simpl in Htype. destruct Htype; discriminate. }
  rewrite pa_open_steps in H.
  apply bind_Raise in H. destruct H as [H | (u0 & w0 & H0 & H)].
  { destruct (open_check_callback_cases cb w) as [E | E]; rewrite E in H;
      [discriminate H | injection H as _ <-; reflexivity]. }
  destruct (open_check_callback_cases cb w) as [E | E];
    rewrite E in H0; [| discriminate H0].
  injection H0 as _ <-.
  apply bind_Raise in H. destruct H as [H | (zi & w1 & H1 & H)].
  { destruct (device_index_cases py ia
                "input_device_index must be integer (or None)"%string w)
      as [[z E1] | [E1 | E1]]; rewrite E1 in H;
      [discriminate H | injection H as _ <-; reflexivity | discriminate H]. }
  destruct (device_index_cases py ia
              "input_device_index must be integer (or None)"%string w)
    as [[z E1] | [E1 | E1]]; rewrite E1 in H1; try discriminate H1.
  injection H1 as <- <-.
  apply bind_Raise in H. destruct H as [H | (zo & w2 & H2 & H)].
  { destruct (device_index_cases py oa
                "output_device_index must be integer (or None)"%string w)
      as [[z' E2] | [E2 | E2]]; rewrite E2 in H;
      [discriminate H | injection H as _ <-; reflexivity | discriminate H]. }
  destruct (device_index_cases py oa
              "output_device_index must be integer (or None)"%string w)
    as [[z' E2] | [E2 | E2]]; rewrite E2 in H2; try discriminate H2.
  injection H2 as <- <-.
  apply bind_Raise in H. destruct H as [H | (u3 & w3 & H3 & H)].
  { destruct (open_check_direction_cases input output channels w)
      as [E3 | [msg E3]]; rewrite E3 in H;
      [discriminate H | injection H as _ <-; reflexivity]. }
  destruct (open_check_direction_cases input output channels w)
    as [E3 | [msg E3]]; rewrite E3 in H3; [| discriminate H3].
  injection H3 as _ <-.
  exfalso.
  pose proof (open_output_parameters_cases pa channels format output z' w) as O.
  cbv zeta in O.
  apply bind_Raise in H. destruct H as [H | (outP & w4 & H4 & H)].
  { rewrite H in O.
    destruct O as [(To & O) | [(To & _ & O) | [(To & _ & _ & O)
                   | (To & Ro & io & _ & O)]]];
      try discriminate O. injection O as O _. exact (Hio _ _ O). }
  pose proof (open_input_parameters_cases pa channels format input z w4) as I.
  cbv zeta in I.
  apply bind_Raise in H. destruct H as [H | (inP & w5 & H5 & H)].
  { rewrite H in I.
    destruct I as [(Ti & I) | [(Ti & _ & I) | [(Ti & _ & _ & I)
                   | (Ti & Ri & ii & _ & I)]]];
      try discriminate I. injection I as I _. exact (Hio _ _ I). }
  apply bind_Raise in H. destruct H as [H | (ctx & w6 & H6 & H)].
  { rewrite open_callback_context_run in H. destruct cb; discriminate H. }
  pose proof (open_native_stream_cases pa rate fpb cb inP outP ctx w6) as N.
  cbv zeta in N. rewrite H in N.
  destruct N as [[_ N] | [(_ & _ & N) | (_ & info & _ & N)]];
    try discriminate N; injection N as N _; exact (Hio _ _ N).
Qed.

Lemma open_argument_errors_have_no_effect_witness :
  PortAudioModule.pa_open (Sample.portaudio 0 PrimFloat.one 0 0)
    (Sample.python (inr Py_None))
    44100 0 Sample.paInt16 1 1 None None 1024 (Some (PyCallable 0))
    Sample2.callback_world
  = (Raise (PyErr_SetString PyExc_ValueError "Invalid audio channels"),
     Sample2.callback_world)
  /\ Sample2.callback_world = Sample2.callback_world.
Proof.
  split; [reflexivity |].
  exact (open_argument_errors_have_no_effect
           (Sample.portaudio 0 PrimFloat.one 0 0) (Sample.python (inr Py_None))
           44100 0 Sample.paInt16 1 1 None None 1024 (Some (PyCallable 0))
           Sample2.callback_world Sample2.callback_world
           (PyErr_SetString PyExc_ValueError "Invalid audio channels")
           eq_refl (or_intror eq_refl)).
Defined.

(** A negative index and the index -1 resolve to the same device. *)
Lemma open_parameters_negative_index (pa : PortAudio) (channels : Z)
      (format : PaSampleFormat) (direction index : Z) :
  index < 0 ->
  PortAudioModule.open_input_parameters pa channels format direction index
  = PortAudioModule.open_input_parameters pa channels format direction (-1)
  /\ PortAudioModule.open_output_parameters pa channels format direction index
     = PortAudioModule.open_output_parameters pa channels format direction (-1).
Proof.
  intros Hneg.
  unfold PortAudioModule.open_input_parameters,
         PortAudioModule.open_output_parameters,
         PortAudioModule.resolve_device.
  destruct (Z.ltb_spec index 0) as [_ | Hge]; [| lia].
  split; reflexivity.
Qed.

Lemma device_index_of_negative_int (py : Python) (n : Z) (msg : string) :
  C.INT_MIN <= n < 0 ->
  PyNumber_Long py (PyLong n) = Some (PyLong n) ->
  PortAudioModule.device_index py (Some (PyLong n)) msg = ret n.
Proof.
  intros Hn Hlong.
  assert (E : C.to_int n = n).
  { unfold C.to_int, C.INT_MIN in *. rewrite Z.mod_small by lia. lia. }
  assert (L : (C.LONG_MIN <=? n) && (n <=? C.LONG_MAX) = true).
  { unfold C.LONG_MIN, C.LONG_MAX, C.INT_MIN in *.
    apply andb_true_intro. split; apply Z.leb_le; lia. }
  unfold PortAudioModule.device_index.
  change (PyNumber_Check (PyLong n)) with true. simpl negb. cbv iota.
  rewrite Hlong. unfold PyLong_AsLong. rewrite L, E. reflexivity.
Qed.

(** X19.  Every negative device index means "the default device": a call
    of [pa_open] with a negative integer as input (or output) device index
    behaves, outcome and world, as the call with that index omitted, and so
    does a call with [None]. *)
Theorem open_negative_index_selects_default :
  forall (pa : PortAudio) (py : Python) (rate channels : Z)
         (format : PaSampleFormat) (input output : Z)
         (other : option PyObject)
         (frames_per_buffer : Z) (stream_callback : option PyObject)
         (w : World) (n : Z),
    C.INT_MIN <= n < 0 ->
    PyNumber_Long py (PyLong n) = Some (PyLong n) ->
    (PortAudioModule.pa_open pa py rate channels format input output
       (Some (PyLong n)) other frames_per_buffer stream_callback w
     = PortAudioModule.pa_open pa py rate channels format input output
         None other frames_per_buffer stream_callback w)
    /\
    (PortAudioModule.pa_open pa py rate channels format input output
       other (Some (PyLong n)) frames_per_buffer stream_callback w
     = PortAudioModule.pa_open pa py rate channels format input output
         other None frames_per_buffer stream_callback w)
    /\
    (PortAudioModule.pa_open pa py rate channels format input output
       (Some Py_None) other frames_per_buffer stream_callback w
     = PortAudioModule.pa_open pa py rate channels format input output
         None other frames_per_buffer stream_callback w)
    /\
    (PortAudioModule.pa_open pa py rate channels format input output
       other (Some Py_None) frames_per_buffer stream_callback w
     = PortAudioModule.pa_open pa py rate channels format input output
         other None frames_per_buffer stream_callback w).
Proof.
  intros pa py rate channels format input output other fpb cb w n Hn Hlong.
  assert (Hneg : n < 0) by lia.
  destruct (open_parameters_negative_index pa channels format input n Hneg)
    as [Hin _].
  destruct (open_parameters_negative_index pa channels format output n Hneg)
    as [_ Hout].
  split; [| split; [| split; reflexivity]].
  - rewrite !pa_open_steps.
    rewrite (device_index_of_negative_int py n _ Hn Hlong).
    unfold bind, ret.
    destruct (PortAudioModule.open_check_callback cb w) as [[| |] w0];
      try reflexivity.
    change (PortAudioModule.device_index py None
              "input_device_index must be integer (or None)" w0)
      with (@Return Z (-1), w0).
    cbv iota beta.
    destruct (PortAudioModule.device_index py other _ w0) as [[zo | |] w1];
      try reflexivity.
    destruct (PortAudioModule.open_check_direction input output channels w1)
      as [[| |] w2]; try reflexivity.
    destruct (PortAudioModule.open_output_parameters pa channels format output
                zo w2) as [[outP | |] w3]; try reflexivity.
    rewrite Hin. reflexivity.
  - rewrite !pa_open_steps.
    rewrite (device_index_of_negative_int py n _ Hn Hlong).
    unfold bind, ret.
    destruct (PortAudioModule.open_check_callback cb w) as [[| |] w0];
      try reflexivity.
    destruct (PortAudioModule.device_index py other _ w0) as [[zi | |] w1];
      try reflexivity.
    change (PortAudioModule.device_index py None
              "output_device_index must be integer (or None)" w1)
      with (@Return Z (-1), w1).
    cbv iota beta.
    destruct (PortAudioModule.open_check_direction input output channels w1)
      as [[| |] w2]; try reflexivity.
    rewrite Hout. reflexivity.
Qed.

Lemma open_negative_index_selects_default_witness :
  PortAudioModule.pa_open (Sample.portaudio 0 PrimFloat.one 0 0)
    (Sample.python (inr Py_None))
    44100 2 Sample.paInt16 0 1 None (Some (PyLong (-5))) 1024 None world0
  = PortAudioModule.pa_open (Sample.portaudio 0 PrimFloat.one 0 0)
      (Sample.python (inr Py_None))
      44100 2 Sample.paInt16 0 1 None None 1024 None world0.
Proof.
  refine (proj1 (proj2 (open_negative_index_selects_default
            (Sample.portaudio 0 PrimFloat.one 0 0) (Sample.python (inr Py_None))
            44100 2 Sample.paInt16 0 1 None 1024 None world0 (-5) _ eq_refl))).
  unfold C.INT_MIN. lia.
Defined.

(** X20.  With both directions requested, a valid output device and an
    input device that resolves to a negative index (no default input
    device), [pa_open] raises [IOError(paInvalidDevice, ...)] before calling
    [Pa_OpenStream]; it has given back the input parameter block, and the
    output parameter block allocated just before is still on the heap. *)
Theorem open_invalid_input_keeps_output_block :
  forall (pa : PortAudio) (py : Python) (rate channels : Z)
         (format : PaSampleFormat) (input output : Z)
         (input_device_index_arg output_device_index_arg : option PyObject)
         (frames_per_buffer : Z) (stream_callback : option PyObject)
         (w : World) (input_device_index output_device_index : Z)
         (info : PaDeviceInfo),
    PortAudioModule.open_check_callback stream_callback w = (Return tt, w) ->
    PortAudioModule.device_index py input_device_index_arg
      "input_device_index must be integer (or None)" w
    = (Return input_device_index, w) ->
    PortAudioModule.device_index py output_device_index_arg
      "output_device_index must be integer (or None)" w
    = (Return output_device_index, w) ->
    PortAudioModule.open_check_direction input output channels w
    = (Return tt, w) ->
    C.truthy output = true ->
    C.truthy input = true ->
    device_in_range pa
      (PortAudioModule.resolve_device output_device_index
         (Pa_GetDefaultOutputDevice pa)) ->
    Pa_GetDeviceInfo pa
      (PortAudioModule.resolve_device output_device_index
         (Pa_GetDefaultOutputDevice pa))
    = Some info ->
    PortAudioModule.resolve_device input_device_index
      (Pa_GetDefaultInputDevice pa) < 0 ->
    PortAudioModule.pa_open pa py rate channels format input output
      input_device_index_arg output_device_index_arg frames_per_buffer
      stream_callback w
    = (Raise (PyErr_SetObject PyExc_IOError paInvalidDevice
                "Invalid input device (no default output device)"),
       malloc OutputParameters_block w).
Proof.
  intros pa py rate channels format input output ia oa fpb cb w zi zo info
         Hcb Hi Ho Hdir Hout Hin Hrange Hinfo Hneg.
  rewrite pa_open_steps. unfold bind at 1. rewrite Hcb.
  unfold bind at 1. rewrite Hi. unfold bind at 1. rewrite Ho.
  unfold bind at 1. rewrite Hdir. unfold bind at 1.
  pose proof (open_output_parameters_cases pa channels format output zo w) as O.
  cbv zeta in O.
  destruct O as [(To & O) | [(To & Ro & O) | [(To & Ro & Hnone & O)
                 | (To & Ro & io & Hsome & O)]]];
    try congruence; try contradiction.
  rewrite O. unfold bind at 1.
  pose proof (open_input_parameters_cases pa channels format input zi
                (malloc OutputParameters_block w)) as I.
  cbv zeta in I.
  destruct I as [(Ti & I) | [(Ti & Ri & I) | [(Ti & Ri & _ & I)
                 | (Ti & Ri & ii & _ & I)]]];
    try congruence; try lia.
  rewrite I. reflexivity.
Qed.

Lemma open_invalid_input_keeps_output_block_witness :
  PortAudioModule.pa_open Sample3.portaudio_without_input
    (Sample.python (inr Py_None))
    44100 2 Sample.paInt16 1 1 None None 1024 None world0
  = (Raise (PyErr_SetObject PyExc_IOError paInvalidDevice
              "Invalid input device (no default output device)"),
     mkWorld [OutputParameters_block] 0 [] None [] []).
Proof.
  refine (open_invalid_input_keeps_output_block
            Sample3.portaudio_without_input (Sample.python (inr Py_None))
            44100 2 Sample.paInt16 1 1 None None 1024 None world0
            (-1) (-1) Sample.device_info
            eq_refl eq_refl eq_refl eq_refl eq_refl eq_refl _ eq_refl _).
  - change (0 <= 1 < 2). lia.
  - change (-1 < 0). lia.
Defined.

(** ** Format queries and initialization *)

(** X21.  [pa_is_format_supported] asks PortAudio once and answers by what
    PortAudio said: [True] when [Pa_IsFormatSupported] answers
    [paFormatIsSupported], and for every other answer a [ValueError] whose
    arguments are the text of that answer first and the answer second; it
    never answers [False].  The parameters it passes are
    [(device, channels, format, 0, NULL)] for a direction whose device is
    not negative, and a null pointer for exactly the directions whose device
    is omitted or negative; the world is not touched. *)
Theorem is_format_supported_true_or_raises :
  forall (pc : PortAudioControl) (pa : PortAudio) (sample_rate : float)
         (input_device input_channels input_format : option Z)
         (output_device output_channels output_format : option Z) (h : Host),
    let local := fun arg : option Z =>
                   match arg with Some v => v | None => -1 end in
    let inP :=
      if local input_device <? 0 then None
      else Some (mkPaStreamParameters (local input_device)
                   (local input_channels) (C.to_ulong (local input_format))
                   PrimFloat.zero None) in
    let outP :=
      if local output_device <? 0 then None
      else Some (mkPaStreamParameters (local output_device)
                   (local output_channels) (C.to_ulong (local output_format))
                   PrimFloat.zero None) in
    let error := Pa_IsFormatSupported pc inP outP sample_rate in
    let run :=
      StreamControl.pa_is_format_supported pc pa sample_rate input_device
        input_channels input_format output_device output_channels
        output_format h in
    (error = paFormatIsSupported -> fst run = inr true)
    /\ (error <> paFormatIsSupported ->
        fst run = inl (mkTextCodeError PyExc_ValueError
                         (Pa_GetErrorText pa error) error))
    /\ fst run <> inr false
    /\ snd run = control (Call_Pa_IsFormatSupported inP outP sample_rate) h
    /\ (inP = None
        <-> match input_device with Some d => d < 0 | None => True end)
    /\ (outP = None
        <-> match output_device with Some d => d < 0 | None => True end).
Proof.
  intros pc pa sample_rate id ic ifmt od oc ofmt h local inP outP error run.
  assert (Hrun : run = (if error =? paFormatIsSupported then inr true
                        else inl (mkTextCodeError PyExc_ValueError
                                    (Pa_GetErrorText pa error) error),
                        control (Call_Pa_IsFormatSupported inP outP
                                   sample_rate) h)).
  { subst run error inP outP local.
    unfold StreamControl.pa_is_format_supported. cbv zeta.
    match goal with
    | |- context [if ?c then _ else _] => destruct c
    end; reflexivity. }
  rewrite Hrun. simpl fst. simpl snd.
  split; [intros ->; reflexivity |].
  split.
  { intros Hne. destruct (Z.eqb_spec error paFormatIsSupported);
      [contradiction | reflexivity]. }
  split.
  { destruct (error =? paFormatIsSupported); discriminate. }
  split; [reflexivity |].
  split.
  - subst inP local. destruct id as [d |]; simpl.
    + destruct (Z.ltb_spec d 0); split; intros; try reflexivity; try lia;
        discriminate.
    + split; trivial.
  - subst outP local. destruct od as [d |]; simpl.
    + destruct (Z.ltb_spec d 0); split; intros; try reflexivity; try lia;
        discriminate.
    + split; trivial.
Qed.

(** A PortAudio that supports output formats only: a query for output
    device 1 is answered [True], a query for input device 0 raises with the
    text and code that PortAudio gave. *)
Lemma is_format_supported_true_or_raises_witness :
  fst (StreamControl.pa_is_format_supported (Sample2.control 0 0)
         (Sample.portaudio 0 PrimFloat.one 0 0) PrimFloat.one
         None None None (Some 1) (Some 2) (Some 8) (Sample2.host world0))
  = inr true
  /\
  fst (StreamControl.pa_is_format_supported (Sample2.control 0 0)
         (Sample.portaudio 0 PrimFloat.one 0 0) PrimFloat.one
         (Some 0) (Some 2) (Some 8) None None None (Sample2.host world0))
  = inl (mkTextCodeError PyExc_ValueError "PortAudio error" paInvalidDevice).
Proof.
  split.
  - exact (proj1 (is_format_supported_true_or_raises (Sample2.control 0 0)
                    (Sample.portaudio 0 PrimFloat.one 0 0) PrimFloat.one
                    None None None (Some 1) (Some 2) (Some 8)
                    (Sample2.host world0)) eq_refl).
  - refine (proj1 (proj2 (is_format_supported_true_or_raises
                            (Sample2.control 0 0)
                            (Sample.portaudio 0 PrimFloat.one 0 0)
                            PrimFloat.one
                            (Some 0) (Some 2) (Some 8) None None None
                            (Sample2.host world0))) _).
    vm_compute. discriminate.
Defined.

(** [pa_get_sample_size] never returns a negative size: a
    non-negative answer of [Pa_GetSampleSize] is returned as it is, a
    negative one becomes a [ValueError] carrying its text and the code. *)
Theorem get_sample_size_never_negative :
  forall (pa : PortAudio) (format : PaSampleFormat),
    match StreamControl.pa_get_sample_size pa format with
    | inr v =>
        v = PyLong (Pa_GetSampleSize pa format)
        /\ 0 <= Pa_GetSampleSize pa format
    | inl e =>
        e = mkTextCodeError PyExc_ValueError
              (Pa_GetErrorText pa (Pa_GetSampleSize pa format))
              (Pa_GetSampleSize pa format)
        /\ Pa_GetSampleSize pa format < 0
    end.
Proof.
  intros pa format. unfold StreamControl.pa_get_sample_size.
  destruct (Z.ltb_spec (Pa_GetSampleSize pa format) 0);
    split; try reflexivity; lia.
Qed.

(** X22.  [pa_initialize] undoes a failed initialization: when
    [Pa_Initialize] fails it calls [Pa_Terminate] before raising
    [IOError(code, text)], and when it succeeds it calls nothing else; the
    world is untouched either way. *)
Theorem initialize_terminates_on_failure :
  forall (pc : PortAudioControl) (pa : PortAudio) (h : Host),
    let err := Pa_Initialize pc in
    (err = paNoError ->
     StreamControl.pa_initialize pc pa h
     = (Return Py_None,
        mkHost (world h) (control_calls h ++ [Call_Pa_Initialize])))
    /\
    (err <> paNoError ->
     StreamControl.pa_initialize pc pa h
     = (Raise (PyErr_SetObject PyExc_IOError err (Pa_GetErrorText pa err)),
        mkHost (world h)
          (control_calls h ++ [Call_Pa_Initialize; Call_Pa_Terminate]))).
Proof.
  intros pc pa h err. unfold StreamControl.pa_initialize. fold err.
  split; intros H.
  - rewrite H. reflexivity.
  - destruct (Z.eqb_spec err paNoError) as [E | _]; [contradiction |].
    simpl. unfold control. simpl. rewrite <- app_assoc. reflexivity.
Qed.

Lemma initialize_terminates_on_failure_witness :
  StreamControl.pa_initialize (Sample2.control paInternalError 0)
    (Sample.portaudio 0 PrimFloat.one 0 0) (Sample2.host world0)
  = (Raise (PyErr_SetObject PyExc_IOError paInternalError "PortAudio error"),
     mkHost world0 [Call_Pa_Initialize; Call_Pa_Terminate])
  /\
  StreamControl.pa_initialize (Sample2.control paNoError 0)
    (Sample.portaudio 0 PrimFloat.one 0 0) (Sample2.host world0)
  = (Return Py_None, mkHost world0 [Call_Pa_Initialize]).
Proof.
  split.
  - apply (proj2 (initialize_terminates_on_failure
                    (Sample2.control paInternalError 0)
                    (Sample.portaudio 0 PrimFloat.one 0 0)
                    (Sample2.host world0))).
    vm_compute. discriminate.
  - apply (proj1 (initialize_terminates_on_failure
                    (Sample2.control paNoError 0)
                    (Sample.portaudio 0 PrimFloat.one 0 0)
                    (Sample2.host world0))).
    reflexivity.
Defined.

(** The CPU load is passed through: on an open stream
    [pa_get_stream_cpu_load] returns the double that PortAudio answered,
    whatever it is, and never tears the handle down. *)
Theorem cpu_load_returned_verbatim :
  forall (pc : PortAudioControl) (streamObject : _pyAudio_Stream) (h : Host),
    PortAudioModule._is_open (Some streamObject) = true ->
    StreamControl.pa_get_stream_cpu_load pc streamObject h
    = (Return (PyFloat (Pa_GetStreamCpuLoad pc (stream streamObject))),
       streamObject,
       mkHost (world h)
         (control_calls h ++ [Call_Pa_GetStreamCpuLoad (stream streamObject)])).
Proof.
  intros pc s h Hopen. unfold StreamControl.pa_get_stream_cpu_load.
  rewrite Hopen. reflexivity.
Qed.

Lemma cpu_load_returned_verbatim_witness :
  StreamControl.pa_get_stream_cpu_load (Sample2.control 0 0)
    Sample2.callback_stream (Sample2.host Sample2.callback_world)
  = (Return (PyFloat PrimFloat.zero), Sample2.callback_stream,
     mkHost Sample2.callback_world [Call_Pa_GetStreamCpuLoad (Some 1)]).
Proof.
  exact (cpu_load_returned_verbatim (Sample2.control 0 0)
           Sample2.callback_stream (Sample2.host Sample2.callback_world)
           eq_refl).
Defined.

(** ** Blocking read *)

Lemma to_int_small (z : Z) : C.INT_MIN <= z <= C.INT_MAX -> C.to_int z = z.
Proof.
  unfold C.INT_MIN, C.INT_MAX, C.to_int. intros H.
  rewrite Z.mod_small by lia. lia.
Qed.

(** X23.  The outcome of a read on an open stream with input parameters,
    when the byte count [total_frames * channelCount * sample size] fits an
    [int]: the buffer handed to [Pa_ReadStream] has exactly that many bytes;
    on [paNoError], and on [paInputOverflowed] unless
    [should_raise_exception] is set, the buffer is returned as PortAudio
    left it and the handle is untouched; on any other status the handle is
    torn down and [IOError(status, text)] raised, the buffer being
    dropped. *)
Theorem read_stream_outcome :
  forall (pa : PortAudio) (streamObject : _pyAudio_Stream)
         (inputParameters0 : PaStreamParameters)
         (total_frames should_raise_exception : Z) (w : World),
    0 <= total_frames ->
    PortAudioModule._is_open (Some streamObject) = true ->
    inputParameters streamObject = Some inputParameters0 ->
    let num_bytes :=
      total_frames * channelCount inputParameters0
      * Pa_GetSampleSize pa (sampleFormat inputParameters0) in
    0 <= num_bytes <= C.INT_MAX ->
    let sampleBlock := repeat x00 (Z.to_nat num_bytes) in
    let err := fst (Pa_ReadStream pa (stream streamObject) sampleBlock
                      total_frames) in
    let rv := snd (Pa_ReadStream pa (stream streamObject) sampleBlock
                     total_frames) in
    let w1 := pa_call (Call_Pa_ReadStream (stream streamObject) total_frames) w in
    Z.of_nat (List.length sampleBlock) = num_bytes
    /\ PortAudioModule.pa_read_stream pa streamObject total_frames
         should_raise_exception w
       = (if read_status_tolerated err should_raise_exception
          then (Return (PyBytes rv), streamObject, w1)
          else (Raise (PyErr_SetObject PyExc_IOError err
                         (Pa_GetErrorText pa err)),
                closed_stream,
                snd (PortAudioModule._cleanup_Stream_object streamObject w1))).
Proof.
  intros pa s p total_frames flag w Hframes Hopen Hin num_bytes Hbytes
         sampleBlock err rv w1.
  split.
  { unfold sampleBlock. rewrite repeat_length. lia. }
  unfold PortAudioModule.pa_read_stream, read_status_tolerated.
  destruct (Z.ltb_spec total_frames 0) as [Hneg | _]; [lia |].
  rewrite Hopen, Hin. simpl negb. cbv iota.
  fold num_bytes.
  rewrite (to_int_small num_bytes) by (unfold C.INT_MIN; lia).
  unfold PortAudioModule.new_sample_block.
  destruct (Z.ltb_spec num_bytes 0) as [Hn | _]; [lia |].
  fold sampleBlock. subst err rv.
  destruct (Pa_ReadStream pa (stream s) sampleBlock total_frames)
    as [err rv].
  simpl fst. simpl snd. fold w1.
  destruct (err =? paNoError); simpl; [reflexivity |].
  destruct (err =? paInputOverflowed); simpl;
    [destruct (C.truthy flag); reflexivity | reflexivity].
Qed.

Lemma read_stream_outcome_witness :
  Z.of_nat (List.length (repeat x00 8)) = 8
  /\ PortAudioModule.pa_read_stream
       (Sample.portaudio 0 PrimFloat.one paInputOverflowed 0)
       Sample.input_only_stream 2 0 world0
     = (Return (PyBytes [x00; x00; x00; x00; x00; x00; x00; x00]),
        Sample.input_only_stream,
        mkWorld [] 0 [Call_Pa_ReadStream (Some 1) 2] None [] []).
Proof.
  refine (read_stream_outcome
            (Sample.portaudio 0 PrimFloat.one paInputOverflowed 0)
            Sample.input_only_stream Sample.input_parameters 2 0 world0
            _ eq_refl eq_refl _).
  - lia.
  - change (0 <= 8 <= 2 ^ 31 - 1). lia.
Defined.

(** X24.  A read with a negative frame count raises
    [ValueError("Invalid number of frames")] and changes neither the stream
    object nor the world, in both copies and before any helper is used. *)
Theorem read_negative_frame_count_rejected :
  forall (pa : PortAudio) (streamObject : _pyAudio_Stream)
         (total_frames should_raise_exception : Z) (w : World),
    total_frames < 0 ->
    PortAudioModule.pa_read_stream pa streamObject total_frames
      should_raise_exception w
    = (Raise (PyErr_SetString PyExc_ValueError "Invalid number of frames"),
       streamObject, w)
    /\
    forall is_stream_open cleanup_stream,
      StreamIO.pa_read_stream is_stream_open cleanup_stream pa streamObject
        total_frames should_raise_exception w
      = (Raise (PyErr_SetString PyExc_ValueError "Invalid number of frames"),
         streamObject, w).
Proof.
  intros pa s total_frames flag w Hneg.
  unfold PortAudioModule.pa_read_stream, StreamIO.pa_read_stream.
  destruct (Z.ltb_spec total_frames 0) as [_ | Hge]; [| lia].
  split; [reflexivity | intros; reflexivity].
Qed.

Lemma read_negative_frame_count_rejected_witness :
  PortAudioModule.pa_read_stream (Sample.portaudio 0 PrimFloat.one 0 0)
    Sample.input_only_stream (-1) 0 world0
  = (Raise (PyErr_SetString PyExc_ValueError "Invalid number of frames"),
     Sample.input_only_stream, world0).
Proof.
  refine (proj1 (read_negative_frame_count_rejected
                   (Sample.portaudio 0 PrimFloat.one 0 0)
                   Sample.input_only_stream (-1) 0 world0 _)).
  lia.
Defined.
